(** * update-expert-templates.py: the expert-template merge, embedded and verified

    The script loads two JSON documents (the template catalog and the
    optimization source), writes a time-stamped backup of the catalog, merges
    the optimized expert definitions into the catalog in memory, stamps the
    catalog with version metadata and writes it back.

    The embedding follows the script line by line:
    - JSON values are an inductive type whose objects are finite maps
      ([gmap string json]) and whose arrays are lists;
    - Python's subscript, membership, item assignment, [list.insert], [len]
      and slicing are total functions into a result type that carries the
      exception raised;
    - the file system, the console and the clock form an explicit world that
      is threaded through the script; an exception leaves the world as it
      was when it was raised. *)

From Stdlib Require Import ZArith Ascii.
From stdpp Require Import gmap strings list fin_maps pretty.

Set Default Proof Using "Type".
Set Warnings "-register-all".
Open Scope string_scope.
Open Scope Z_scope.

(** ** JSON values (what [json.load] returns) *)

(** [JFloat] carries the bit pattern of the IEEE double; the script copies
    numbers but never inspects them. *)
Inductive json : Type :=
| JNull
| JBool (b : bool)
| JInt (z : Z)
| JFloat (bits : Z)
| JStr (s : string)
| JArr (l : list json)
| JObj (m : gmap string json).

(** ** Exceptions and results *)

Inductive exception : Type :=
| KeyError (key : string)
| KeyErrorInt (key : nat)
| IndexError
| TypeError
| AttributeError (attribute : string)
| FileNotFoundError (path : string)
| JSONDecodeError.

Inductive result (A : Type) : Type :=
| Ok (a : A)
| Raise (e : exception).
Arguments Ok {A} a.
Arguments Raise {A} e.

#[global] Instance result_ret : MRet result := λ A a, Ok a.
#[global] Instance result_bind : MBind result := λ A B f r,
  match r with
  | Ok a => f a
  | Raise e => Raise e
  end.

(** ** Python strings

    A [string] holds the UTF-8 bytes of a Python [str].  Indexing and [len]
    of a Python string count code points, so the bytes are grouped: a byte
    of the form 10xxxxxx continues the code point before it. *)

Definition is_continuation (c : ascii) : bool :=
  match c with
  | Ascii _ _ _ _ _ _ false true => true
  | _ => false
  end.

Fixpoint code_points_go (cur : string) (s : string) : list string :=
  match s with
  | EmptyString => [cur]
  | String c rest =>
      if is_continuation c then code_points_go (cur +:+ String c EmptyString) rest
      else cur :: code_points_go (String c EmptyString) rest
  end.

Definition code_points (s : string) : list string :=
  match s with
  | EmptyString => []
  | String c rest => code_points_go (String c EmptyString) rest
  end.

(** [needle in haystack] for two strings. *)
Definition is_substring (needle haystack : string) : bool :=
  match String.index 0 needle haystack with
  | Some _ => true
  | None => false
  end.

(** ** Python operations on JSON values *)

(** [d[k]] for a string [k]. *)
Definition getitem (d : json) (k : string) : result json :=
  match d with
  | JObj m =>
      match m !! k with
      | Some v => Ok v
      | None => Raise (KeyError k)
      end
  | _ => Raise TypeError
  end.

(** [d[i]] for a non-negative integer [i]. *)
Definition getindex (d : json) (i : nat) : result json :=
  match d with
  | JArr l =>
      match l !! i with
      | Some v => Ok v
      | None => Raise IndexError
      end
  | JStr s =>
      match code_points s !! i with
      | Some c => Ok (JStr c)
      | None => Raise IndexError
      end
  | JObj _ => Raise (KeyErrorInt i)
  | _ => Raise TypeError
  end.

(** [k in d] for a string [k]: key membership in a dict, element membership
    in a list (only a string element can equal [k]), substring test on a
    string. *)
Definition contains (k : string) (d : json) : result bool :=
  match d with
  | JObj m => Ok (bool_decide (is_Some (m !! k)))
  | JArr l =>
      Ok (existsb (λ x, match x with JStr s => bool_decide (s = k) | _ => false end) l)
  | JStr s => Ok (is_substring k s)
  | _ => Raise TypeError
  end.

(** [d[k] = v]: only a dict accepts a string key. *)
Definition setitem (d : json) (k : string) (v : json) : result json :=
  match d with
  | JObj m => Ok (JObj (<[k := v]> m))
  | _ => Raise TypeError
  end.

(** [l.insert(0, x)]: only a list has the method. *)
Definition insert_front (x : json) (l : json) : result json :=
  match l with
  | JArr xs => Ok (JArr (x :: xs))
  | _ => Raise (AttributeError "insert")
  end.

(** [len(x)]. *)
Definition len (x : json) : result Z :=
  match x with
  | JArr l => Ok (Z.of_nat (length l))
  | JObj m => Ok (Z.of_nat (size m))
  | JStr s => Ok (Z.of_nat (length (code_points s)))
  | _ => Raise TypeError
  end.

(** [x[:n]].  A dict cannot be sliced (which exception it raises depends on
    the interpreter version; the script only slices what [insert] has just
    accepted, which is a list). *)
Definition slice_to (n : nat) (x : json) : result json :=
  match x with
  | JArr l => Ok (JArr (take n l))
  | JStr s => Ok (JStr (foldr String.append EmptyString (take n (code_points s))))
  | _ => Raise TypeError
  end.

(** Writing the child back into the dict it was read from.  The catalog is a
    tree of freshly parsed objects, so mutating an object reached through a
    chain of subscripts is the same as rebuilding the chain around the new
    value. *)
Definition put_back (d : json) (k : string) (v : json) : json :=
  match d with
  | JObj m => JObj (<[k := v]> m)
  | _ => d
  end.

(** [root[k1][k2]...[kn]] evaluated left to right. *)
Fixpoint getpath (root : json) (path : list string) : result json :=
  match path with
  | [] => Ok root
  | k :: rest => child ← getitem root k; getpath child rest
  end.

(** An in-place mutation [f] of the object [root[k1]...[kn]]: the subscripts
    are evaluated first, then [f] runs on the object found. *)
Fixpoint mutate (path : list string) (f : json → result json) (root : json)
  : result json :=
  match path with
  | [] => f root
  | k :: rest =>
      child ← getitem root k;
      child' ← mutate rest f child;
      Ok (put_back root k child')
  end.

(** ** The world: files, console, clock *)

Record datetime : Type := {
  year : nat; month : nat; day : nat;
  hour : nat; minute : nat; second : nat
}.

Definition pad2 (n : nat) : string :=
  if decide (n < 10)%nat then "0" +:+ pretty n else pretty n.

(** [strftime] for the directives the script uses: a four-digit year and
    two-digit, zero-padded month, day, hour, minute and second. *)
Definition directive (c : ascii) (t : datetime) : string :=
  if decide (c = "Y"%char) then pretty (year t)
  else if decide (c = "m"%char) then pad2 (month t)
  else if decide (c = "d"%char) then pad2 (day t)
  else if decide (c = "H"%char) then pad2 (hour t)
  else if decide (c = "M"%char) then pad2 (minute t)
  else if decide (c = "S"%char) then pad2 (second t)
  else String "%" (String c EmptyString).

Fixpoint strftime (format : string) (t : datetime) : string :=
  match format with
  | EmptyString => EmptyString
  | String c rest =>
      if decide (c = "%"%char) then
        match rest with
        | EmptyString => String c EmptyString
        | String d rest' => directive d t +:+ strftime rest' t
        end
      else String c (strftime rest t)
  end.

(** The text of a file either parses to a JSON value or does not.  A file
    that parses is identified with the value [json.load] returns for it:
    formatting, key order and repeated keys are below this level. *)
Inductive contents : Type :=
| Malformed
| Document (j : json).

Record world : Type := {
  files : gmap string contents;
  stdout : list string;
  clock : nat → datetime;
  ticks : nat
}.

Definition IO (A : Type) : Type := world → result A * world.

#[global] Instance IO_ret : MRet IO := λ A a w, (Ok a, w).
#[global] Instance IO_bind : MBind IO := λ A B f m w,
  match m w with
  | (Ok a, w') => f a w'
  | (Raise e, w') => (Raise e, w')
  end.

Definition lift {A} (r : result A) : IO A := λ w, (r, w).

Definition print (line : string) : IO unit := λ w,
  (Ok tt, {| files := files w; stdout := stdout w ++ [line];
             clock := clock w; ticks := ticks w |}).

(** [datetime.now().strftime(format)] *)
Definition now_strftime (format : string) : IO string := λ w,
  (Ok (strftime format (clock w (ticks w))),
   {| files := files w; stdout := stdout w;
      clock := clock w; ticks := S (ticks w) |}).

(** [os.path.basename] *)
Fixpoint has_separator (p : string) : bool :=
  match p with
  | EmptyString => false
  | String c rest => if decide (c = "/"%char) then true else has_separator rest
  end.

Fixpoint basename (p : string) : string :=
  match p with
  | EmptyString => EmptyString
  | String c rest =>
      if has_separator rest then basename rest
      else if decide (c = "/"%char) then rest else p
  end.

(** ** The script *)

(** Lines 11-14: a missing file and a file that does not parse raise. *)
Definition load_json_file (file_path : string) : IO json := λ w,
  match files w !! file_path with
  | None => (Raise (FileNotFoundError file_path), w)
  | Some Malformed => (Raise JSONDecodeError, w)
  | Some (Document data) => (Ok data, w)
  end.

(** Lines 16-19.  Opening the file for writing is taken to succeed, and every
    value the script saves is made of JSON values, so [json.dump] does not
    raise: the file then holds the text of [data]. *)
Definition save_json_file (data : json) (file_path : string) : IO unit := λ w,
  (Ok tt, {| files := <[file_path := Document data]> (files w);
             stdout := stdout w; clock := clock w; ticks := ticks w |}).

Section Script.

(** [str(x)] of a value that is not a string is Python's [repr] of it, and
    [str(e)] of an exception is its message.  Both texts only ever reach
    the console or an interpolated title, so they are parameters. *)
Variable repr : json → string.
Variable message : exception → string.

Definition str (x : json) : string :=
  match x with
  | JStr s => s
  | _ => repr x
  end.

Definition strings (l : list string) : json := JArr (JStr <$> l).

(** Lines 21-61.  The dict display is evaluated entry by entry, so the
    subscripts are read in the order of the source. *)
Definition create_optimized_template
    (expert_key : string) (optimized_data original_template : json) : result json :=
  experts ← getitem optimized_data "experts";
  expert_info ← getitem experts expert_key;
  title_name ← getitem expert_info "name";
  description ← getitem expert_info "description";
  system ← getpath expert_info ["optimized_prompt"; "system"];
  context ← getpath expert_info ["optimized_prompt"; "context"];
  task ← getpath expert_info ["optimized_prompt"; "task_framework"];
  format ← getpath expert_info ["optimized_prompt"; "output_format"];
  examples_name ← getitem expert_info "name";
  safety ← getpath expert_info ["optimized_prompt"; "safety_guidelines"];
  tags ← getitem expert_info "core_competencies";
  useCases ← getitem expert_info "target_users";
  targetUsers ← getitem expert_info "target_users";
  coreCompetencies ← getitem expert_info "core_competencies";
  Ok (JObj (list_to_map [
    ("id", JStr (expert_key +:+ "-professional-consultation"));
    ("title", JStr ("专业" +:+ str title_name +:+ "咨询助手"));
    ("category", JStr "专业咨询");
    ("description", JStr ("基于行动型AI教练模式的" +:+ str description));
    ("difficulty", JStr "professional");
    ("estimatedTime", JStr "15-30分钟");
    ("prompt", JObj (list_to_map [
       ("system", system);
       ("context", context);
       ("task", task);
       ("format", format);
       ("examples", JStr ("基于" +:+ str examples_name +:+ "专业场景提供具体可执行的解决方案"));
       ("safety", safety)]));
    ("tags", tags);
    ("useCases", useCases);
    ("targetUsers", targetUsers);
    ("coreCompetencies", coreCompetencies);
    ("bestPractices", strings [
       "始终提供具体可执行的行动方案";
       "结合中国本土化环境和政策";
       "重视风险识别和防控";
       "支持客户决策和实施";
       "提供持续的专业指导"]);
    ("optimizationFeatures", strings [
       "行动型AI教练模式";
       "结构化决策框架";
       "具体实施清单";
       "中国本土化适配";
       "专业伦理保障"])])).

(** Lines 98-102: [original_data['industries'][expert_key][field] =
    optimized_data['experts'][optimized_key][source_field]]; the right-hand
    side is evaluated before the target. *)
Definition copy_field (optimized_data : json) (expert_key optimized_key : string)
    (field source_field : string) (original_data : json) : result json :=
  v ← getpath optimized_data ["experts"; optimized_key; source_field];
  mutate ["industries"; expert_key] (λ industry, setitem industry field v) original_data.

(** Lines 94-115: the body of the loop, for one entry of the mapping. *)
Definition update_expert (optimized_data : json) (expert_key optimized_key : string)
    (original_data : json) (updated_count : Z) : IO (json * Z) :=
  industries ← lift (getitem original_data "industries");
  in_catalog ← lift (contains expert_key industries);
  in_both ←
    (if in_catalog : bool then
       experts ← lift (getitem optimized_data "experts");
       lift (contains optimized_key experts)
     else mret false);
  if in_both : bool then
    name ← lift (getpath optimized_data ["experts"; optimized_key; "name"]);
    print ("🔄 更新 " +:+ str name +:+ " 专家...");;
    original_data ← lift (copy_field optimized_data expert_key optimized_key
                            "name" "name" original_data);
    original_data ← lift (copy_field optimized_data expert_key optimized_key
                            "description" "description" original_data);
    original_data ← lift (copy_field optimized_data expert_key optimized_key
                            "emoji" "emoji" original_data);
    original_data ← lift (copy_field optimized_data expert_key optimized_key
                            "targetUsers" "target_users" original_data);
    original_data ← lift (copy_field optimized_data expert_key optimized_key
                            "coreCompetencies" "core_competencies" original_data);
    original_template ← lift (
      templates ← getpath original_data ["industries"; expert_key; "templates"];
      getindex templates 0);
    optimized_template ← lift (
      create_optimized_template expert_key optimized_data original_template);
    original_data ← lift (
      mutate ["industries"; expert_key; "templates"]
             (insert_front optimized_template) original_data);
    n ← lift (
      templates ← getpath original_data ["industries"; expert_key; "templates"];
      len templates);
    original_data ←
      (if decide (n > 10) then
         first_ten ← lift (
           templates ← getpath original_data ["industries"; expert_key; "templates"];
           slice_to 10 templates);
         lift (mutate ["industries"; expert_key]
                      (λ industry, setitem industry "templates" first_ten)
                      original_data)
       else mret original_data);
    let updated_count := updated_count + 1 in
    name ← lift (getpath optimized_data ["experts"; optimized_key; "name"]);
    print ("✅ " +:+ str name +:+ " 更新完成");;
    mret (original_data, updated_count)
  else mret (original_data, updated_count).

(** Lines 83-89: the mapping, in the order a dict literal iterates. *)
Definition expert_mapping : list (string * string) :=
  [("teacher", "teacher");
   ("lawyer", "lawyer");
   ("accountant", "accountant");
   ("realtor", "realtor");
   ("insurance", "insurance")].

(** Lines 92-115: the loop. *)
Fixpoint update_experts (optimized_data : json) (items : list (string * string))
    (original_data : json) (updated_count : Z) : IO (json * Z) :=
  match items with
  | [] => mret (original_data, updated_count)
  | (expert_key, optimized_key) :: rest =>
      '(original_data, updated_count) ←
        update_expert optimized_data expert_key optimized_key
                      original_data updated_count;
      update_experts optimized_data rest original_data updated_count
  end.

Definition original_file : string :=
  "/home/kexing/09-ai-prompt-generator/data/templates-2025.json".
Definition optimized_file : string :=
  "/home/kexing/09-ai-prompt-generator/optimized-expert-prompts.json".
Definition backup_path (stamp : string) : string :=
  "/home/kexing/09-ai-prompt-generator/data/templates-2025-backup-" +:+ stamp +:+ ".json".

Definition features : list string :=
  ["行动型AI教练模式";
   "Context7最佳实践应用";
   "中国本土化深度优化";
   "结构化决策框架";
   "具体执行步骤指导"].

(** Lines 117-132: version metadata. *)
Definition stamp_version (backup_file : string) (updated_count : Z)
    (original_data : json) : IO json :=
  original_data ← lift (setitem original_data "version" (JStr "2025.2-optimized"));
  today ← now_strftime "%Y-%m-%d";
  original_data ← lift (setitem original_data "lastUpdated" (JStr today));
  optimization_date ← now_strftime "%Y-%m-%d %H:%M:%S";
  lift (setitem original_data "optimizationInfo" (JObj (list_to_map [
    ("optimizedBy", JStr "Claude Code AI Prompt Generator");
    ("optimizationDate", JStr optimization_date);
    ("features", strings features);
    ("expertCount", JInt updated_count);
    ("backupFile", JStr (basename backup_file))]))).

Definition summary (updated_count : Z) (backup_file version : string) : string :=
  "
🎉 专家模板优化完成！

📊 更新统计：
   - 更新专家数量：" +:+ pretty updated_count +:+ "个
   - 备份文件：" +:+ backup_file +:+ "
   - 版本：" +:+ version +:+ "
   
🚀 优化特性：
   ✨ 行动型AI教练模式
   ✨ Context7最佳实践
   ✨ 中国本土化适配
   ✨ 结构化决策框架
   ✨ 具体执行清单
   
📁 文件位置：" +:+ original_file +:+ "
    ".

(** Lines 63-156. *)
Definition update_expert_templates : IO bool :=
  stamp ← now_strftime "%Y%m%d_%H%M%S";
  let backup_file := backup_path stamp in
  print "📖 加载原始模板文件...";;
  original_data ← load_json_file original_file;
  print "📖 加载优化提示词文件...";;
  optimized_data ← load_json_file optimized_file;
  print "💾 创建备份文件...";;
  save_json_file original_data backup_file;;
  '(original_data, updated_count) ←
    update_experts optimized_data expert_mapping original_data 0;
  original_data ← stamp_version backup_file updated_count original_data;
  print "💾 保存更新后的模板文件...";;
  save_json_file original_data original_file;;
  version ← lift (getitem original_data "version");
  print (summary updated_count backup_file (str version));;
  mret true.

(** Lines 158-163: the process; the result is the exit status. *)
Definition main (w : world) : Z * world :=
  match update_expert_templates w with
  | (Ok _, w') => (0, w')
  | (Raise e, w') =>
      match print ("❌ 更新失败: " +:+ message e) w' with
      | (_, w'') => (1, w'')
      end
  end.

(** ** The loop body seen from the industry record

    Every subscript chain of the loop body starts with
    [original_data['industries'][expert_key]].  [merge_industry] is the
    same sequence of statements (lines 98-112) run on that record alone;
    [update_expert_in_both] below shows that the loop body is exactly this,
    written back into the catalog. *)
Definition set_field (expert_info : json) (field source_field : string)
    (industry : json) : result json :=
  v ← getitem expert_info source_field;
  setitem industry field v.

Definition merge_industry (optimized_data : json) (expert_key : string)
    (expert_info industry : json) : result json :=
  industry ← set_field expert_info "name" "name" industry;
  industry ← set_field expert_info "description" "description" industry;
  industry ← set_field expert_info "emoji" "emoji" industry;
  industry ← set_field expert_info "targetUsers" "target_users" industry;
  industry ← set_field expert_info "coreCompetencies" "core_competencies" industry;
  original_template ← (templates ← getitem industry "templates"; getindex templates 0);
  optimized_template ←
    create_optimized_template expert_key optimized_data original_template;
  industry ← mutate ["templates"] (insert_front optimized_template) industry;
  n ← (templates ← getitem industry "templates"; len templates);
  if decide (n > 10) then
    first_ten ← (templates ← getitem industry "templates"; slice_to 10 templates);
    setitem industry "templates" first_ten
  else Ok industry.

(** The loop, seen from the [industries] mapping. *)
Definition in_both (industries experts : gmap string json) (key : string) : bool :=
  bool_decide (is_Some (industries !! key)) && bool_decide (is_Some (experts !! key)).

Fixpoint merge_industries (optimized_data : json) (experts : gmap string json)
    (keys : list string) (industries : gmap string json)
    : result (gmap string json) :=
  match keys with
  | [] => Ok industries
  | key :: rest =>
      match industries !! key, experts !! key with
      | Some industry, Some expert_info =>
          industry' ← merge_industry optimized_data key expert_info industry;
          merge_industries optimized_data experts rest (<[key := industry']> industries)
      | _, _ => merge_industries optimized_data experts rest industries
      end
  end.

End Script.

(** ** Document shapes (section 3 of the specification) *)

(** [C.industries] and [S.experts], when the document is a mapping whose
    entry of that name is a mapping. *)
Definition mapping_at (field : string) (document : json) : option (gmap string json) :=
  match document with
  | JObj m =>
      match m !! field with
      | Some (JObj inner) => Some inner
      | _ => None
      end
  | _ => None
  end.

Definition industries_of : json → option (gmap string json) := mapping_at "industries".
Definition experts_of : json → option (gmap string json) := mapping_at "experts".

(** A catalog with top-level entries [top] and industries [industries]. *)
Definition catalog (top industries : gmap string json) : json :=
  JObj (<["industries" := JObj industries]> top).

(** [industry.templates], when it is a list. *)
Definition templates_of (industry : json) : option (list json) :=
  match industry with
  | JObj m =>
      match m !! "templates" with
      | Some (JArr l) => Some l
      | _ => None
      end
  | _ => None
  end.

Definition has_fields (fields : list string) (d : json) : bool :=
  match d with
  | JObj m => forallb (λ k, bool_decide (is_Some (m !! k))) fields
  | _ => false
  end.

(** An ExpertInfo record with every field the script reads. *)
Definition complete_expert (expert_info : json) : bool :=
  has_fields ["name"; "description"; "emoji"; "target_users"; "core_competencies"]
             expert_info
  && match getitem expert_info "optimized_prompt" with
     | Ok p => has_fields ["system"; "context"; "task_framework"; "output_format";
                           "safety_guidelines"] p
     | Raise _ => false
     end.

Definition expert_keys : list string := expert_mapping.*1.

(** A mapping table that sends every key to itself, as [expert_mapping] does. *)
Definition identity_mapping (keys : list string) : list (string * string) :=
  (λ key, (key, key)) <$> keys.

(** How many of [keys] are keys of both mappings. *)
Definition count_in_both (industries experts : gmap string json) (keys : list string) : Z :=
  Z.of_nat (length (List.filter (in_both industries experts) keys)).

(** The three top-level entries that lines 118-132 set on the catalog. *)
Definition stamped (backup_file today optimization_date : string) (updated_count : Z)
    (document : gmap string json) : gmap string json :=
  <["optimizationInfo" := JObj (list_to_map [
      ("optimizedBy", JStr "Claude Code AI Prompt Generator");
      ("optimizationDate", JStr optimization_date);
      ("features", strings features);
      ("expertCount", JInt updated_count);
      ("backupFile", JStr (basename backup_file))])]>
    (<["lastUpdated" := JStr today]>
       (<["version" := JStr "2025.2-optimized"]> document)).

(** A step that leaves the files and the clock alone (it may print). *)
Definition quiet {A} (m : IO A) : Prop :=
  ∀ w, files (m w).2 = files w ∧ clock (m w).2 = clock w ∧ ticks (m w).2 = ticks w.

(** A step that leaves the file at [path] alone. *)
Definition keeps {A} (path : string) (m : IO A) : Prop :=
  ∀ w, files (m w).2 !! path = files w !! path.

(** The catalog file as a document, and the places the properties look at. *)
Definition catalog_file (w : world) : option json :=
  match files w !! original_file with
  | Some (Document document) => Some document
  | _ => None
  end.

Definition expert_count (document : json) : result json :=
  getpath document ["optimizationInfo"; "expertCount"].

Definition templates_at (key : string) (document : json) : result json :=
  getpath document ["industries"; key; "templates"].

(** The five entries the loop overwrites on an industry record. *)
Definition overwritten (name description emoji target_users core_competencies : json)
    (industry : gmap string json) : gmap string json :=
  <["coreCompetencies" := core_competencies]>
    (<["targetUsers" := target_users]>
       (<["emoji" := emoji]>
          (<["description" := description]>
             (<["name" := name]> industry)))).

(** The loop can complete: every expert record it reads is complete and every
    templates list it indexes has a head. *)
Definition mergeable (industries experts : gmap string json) (keys : list string) : Prop :=
  ∀ key industry expert_info,
    key ∈ keys →
    industries !! key = Some industry →
    experts !! key = Some expert_info →
    complete_expert expert_info = true
    ∧ ∃ t0 ts, templates_of industry = Some (t0 :: ts).


(** ** Sample documents *)

Module Sample.

Definition repr (x : json) : string := "<object>".
Definition message (e : exception) : string := "error".

Definition expert (name : string) : json :=
  JObj (list_to_map [
    ("name", JStr name);
    ("description", JStr "description");
    ("emoji", JStr "*");
    ("target_users", strings ["user"]);
    ("core_competencies", strings ["skill"]);
    ("optimized_prompt", JObj (list_to_map [
       ("system", JStr "system");
       ("context", JStr "context");
       ("task_framework", JStr "task");
       ("output_format", JStr "format");
       ("safety_guidelines", JStr "safety")]))]).

Definition template (id : string) : json := JObj {["id" := JStr id]}.

Definition industry (templates : list json) : json :=
  JObj (list_to_map [("name", JStr "old name"); ("templates", JArr templates)]).

Definition ten : list json :=
  template <$> ["t0"; "t1"; "t2"; "t3"; "t4"; "t5"; "t6"; "t7"; "t8"; "t9"].

(** The source covers three table keys and one key outside the table. *)
Definition experts : gmap string json :=
  list_to_map [("lawyer", expert "L"); ("teacher", expert "T");
               ("realtor", expert "R"); ("doctor", expert "D")].
Definition source : json := JObj {["experts" := JObj experts]}.

(** The catalog has no realtor; accountant is not in the source; doctor is
    in both documents but not in the table. *)
Definition industries : gmap string json :=
  list_to_map [("lawyer", industry ten);
               ("teacher", industry [template "a"; template "b"]);
               ("accountant", industry [template "c"]);
               ("doctor", industry [template "d"])].
Definition top : gmap string json := {["version" := JStr "2025.1"]}.
Definition document : json := catalog top industries.

Definition time (n : nat) : datetime :=
  {| year := 2025; month := 8; day := 3; hour := 14; minute := 5; second := n |}.

Definition world_of (catalog_contents source_contents : contents) : world :=
  {| files := list_to_map [(original_file, catalog_contents);
                           (optimized_file, source_contents)];
     stdout := []; clock := time; ticks := 0 |}.

Definition w : world := world_of (Document document) (Document source).

(** A catalog whose lawyer has no template at all. *)
Definition industries_empty : gmap string json :=
  <["lawyer" := industry []]> industries.
Definition w_empty : world :=
  world_of (Document (catalog top industries_empty)) (Document source).

(** A source file that does not parse. *)
Definition w_malformed : world := world_of (Document document) Malformed.


(** The world after one run and after two. *)
Definition once : world := (update_expert_templates repr w).2.
Definition twice : world := (update_expert_templates repr once).2.

End Sample.

(** ** Further vocabulary for the properties of the script *)

(** What [create_optimized_template] reads of an expert record: every field
    but [emoji]. *)
Definition buildable (expert_info : json) : bool :=
  has_fields ["name"; "description"; "core_competencies"; "target_users"] expert_info
  && match getitem expert_info "optimized_prompt" with
     | Ok p => has_fields ["system"; "context"; "task_framework"; "output_format";
                           "safety_guidelines"] p
     | Raise _ => false
     end.


(** The first of [fields] that is not a key of [record]. *)
Definition first_missing (fields : list string) (record : gmap string json)
  : option string :=
  List.find (λ field, bool_decide (record !! field = None)) fields.

(** The two console lines of lines 95 and 115 for every key of [keys] that is
    in both mappings, in the order of [keys]. *)
Definition progress_lines (repr : json → string) (industries experts : gmap string json)
    (keys : list string) : list string :=
  flat_map (λ key,
    match industries !! key, experts !! key with
    | Some _, Some expert_info =>
        match getitem expert_info "name" with
        | Ok name => ["🔄 更新 " +:+ str repr name +:+ " 专家...";
                      "✅ " +:+ str repr name +:+ " 更新完成"]
        | Raise _ => []
        end
    | _, _ => []
    end) keys.

(** The path of the backup that a run started in world [w] writes. *)
Definition backup_file_of (w : world) : string :=
  backup_path (strftime "%Y%m%d_%H%M%S" (clock w (ticks w))).

(** ** Sample documents for the edge cases *)

Module Edge.

(** A world without the catalog file. *)
Definition w_no_catalog : world :=
{| files := {[optimized_file := Document Sample.source]};
   stdout := []; clock := Sample.time; ticks := 0 |}.


(** An expert record with a name and nothing else. *)
Definition name_only : gmap string json := {["name" := JStr "L"]}.
Definition experts : gmap string json := {["lawyer" := JObj name_only]}.
Definition source : json := JObj {["experts" := JObj experts]}.

Definition lawyer_expert : gmap string json :=
list_to_map [
  ("name", JStr "L");
  ("description", JStr "description");
  ("emoji", JStr "*");
  ("target_users", strings ["user"]);
  ("core_competencies", strings ["skill"]);
  ("optimized_prompt", JObj (list_to_map [
     ("system", JStr "system");
     ("context", JStr "context");
     ("task_framework", JStr "task");
     ("output_format", JStr "format");
     ("safety_guidelines", JStr "safety")]))].


End Edge.

(** Closing a decidable goal about the sample documents by evaluation. *)
Ltac by_lookup := apply (bool_decide_unpack _); vm_compute; exact I.

(** * Properties *)

(** ** The result monad *)

Lemma bind_Ok {A B} (f : A → result B) (a : A) : (Ok a ≫= f) = f a.
Proof. reflexivity. Qed.

Lemma bind_Raise {A B} (f : A → result B) (e : exception) : (Raise e ≫= f) = Raise e.
Proof. reflexivity. Qed.

Lemma bind_assoc {A B C} (r : result A) (f : A → result B) (g : B → result C) :
  (r ≫= f) ≫= g = r ≫= (λ a, f a ≫= g).
Proof. by destruct r. Qed.

Lemma bind_inv_Ok {A B} (r : result A) (f : A → result B) (b : B) :
  r ≫= f = Ok b → ∃ a, r = Ok a ∧ f a = Ok b.
Proof. destruct r as [a|e]; [by exists a | done]. Qed.

(** ** Subscripts *)

Lemma getitem_Ok d k v : getitem d k = Ok v ↔ ∃ m, d = JObj m ∧ m !! k = Some v.
Proof.
  split.
  - destruct d as [| | | | | |m]; simpl; try done.
    destruct (m !! k) as [x|] eqn:E; [|done]. intros [= ->]. by exists m.
  - intros (m & -> & E). simpl. by rewrite E.
Qed.

Lemma getitem_obj m k :
  getitem (JObj m) k = match m !! k with Some v => Ok v | None => Raise (KeyError k) end.
Proof. reflexivity. Qed.

Lemma getpath_app root p q :
  getpath root (p ++ q) = r ← getpath root p; getpath r q.
Proof.
  revert root. induction p as [|k p IH]; intros root; [done|].
  simpl. destruct (getitem root k) as [child|e]; simpl; [apply IH | done].
Qed.

Lemma mutate_app p q f root : mutate (p ++ q) f root = mutate p (mutate q f) root.
Proof.
  revert root. induction p as [|k p IH]; intros root; [done|].
  simpl. destruct (getitem root k) as [child|e]; simpl; [|done].
  by rewrite IH.
Qed.

Lemma mapping_at_Some field d inner :
  mapping_at field d = Some inner ↔ ∃ m, d = JObj m ∧ m !! field = Some (JObj inner).
Proof.
  split.
  - destruct d as [| | | | | |m]; simpl; try done.
    destruct (m !! field) as [[| | | | | |x]|] eqn:E; try done.
    intros [= ->]. by exists m.
  - intros (m & -> & E). simpl. by rewrite E.
Qed.

Lemma industries_of_catalog top industries :
  industries_of (catalog top industries) = Some industries.
Proof. unfold industries_of, catalog. simpl. by rewrite lookup_insert_eq. Qed.

(** Every document with an [industries] mapping is a [catalog]. *)
Lemma catalog_of_industries C industries :
  industries_of C = Some industries → ∃ top, C = catalog top industries.
Proof.
  intros (m & -> & E)%mapping_at_Some. exists m.
  unfold catalog. by rewrite insert_id.
Qed.

Lemma getitem_catalog_industries top industries :
  getitem (catalog top industries) "industries" = Ok (JObj industries).
Proof. unfold catalog. simpl. by rewrite lookup_insert_eq. Qed.

Lemma getitem_experts src experts :
  experts_of src = Some experts → getitem src "experts" = Ok (JObj experts).
Proof. intros (m & -> & E)%mapping_at_Some. simpl. by rewrite E. Qed.

Lemma getpath_catalog_industry top industries key industry q :
  industries !! key = Some industry →
  getpath (catalog top industries) ("industries" :: key :: q) = getpath industry q.
Proof.
  intros E. change (getpath ?c (?a :: ?b :: q)) with
    (x ← getitem c a; y ← getitem x b; getpath y q).
  rewrite getitem_catalog_industries. simpl. by rewrite E.
Qed.

Lemma getpath_expert src experts key expert_info q :
  experts_of src = Some experts → experts !! key = Some expert_info →
  getpath src ("experts" :: key :: q) = getpath expert_info q.
Proof.
  intros HS E. change (getpath ?c (?a :: ?b :: q)) with
    (x ← getitem c a; y ← getitem x b; getpath y q).
  rewrite (getitem_experts _ _ HS). simpl. by rewrite E.
Qed.

Lemma mutate_catalog_industry top industries key industry q f :
  industries !! key = Some industry →
  mutate ("industries" :: key :: q) f (catalog top industries) =
    industry' ← mutate q f industry;
    Ok (catalog top (<[key := industry']> industries)).
Proof.
  intros E. change (mutate (?a :: ?b :: q) f ?c) with
    (x ← getitem c a;
     x' ← (y ← getitem x b; y' ← mutate q f y; Ok (put_back x b y'));
     Ok (put_back c a x')).
  rewrite getitem_catalog_industries. simpl. rewrite E. simpl.
  destruct (mutate q f industry) as [industry'|e]; simpl; [|done].
  unfold catalog. by rewrite insert_insert_eq.
Qed.

Lemma setitem_Ok d k v d' :
  setitem d k v = Ok d' ↔ ∃ m, d = JObj m ∧ d' = JObj (<[k := v]> m).
Proof.
  split.
  - destruct d as [| | | | | |m]; try done. intros [= <-]. by exists m.
  - by intros (m & -> & ->).
Qed.

Lemma lookup_overwritten_templates name description emoji target_users competencies ind :
  overwritten name description emoji target_users competencies ind !! "templates"
  = ind !! "templates".
Proof. unfold overwritten. by rewrite !lookup_insert_ne. Qed.

Lemma getitem_insert_eq m k v : getitem (JObj (<[k := v]> m)) k = Ok v.
Proof. by rewrite getitem_obj, lookup_insert_eq. Qed.

Lemma getpath_single d k : getpath d [k] = getitem d k.
Proof. simpl. by destruct (getitem d k). Qed.

Lemma contains_obj k m : contains k (JObj m) = Ok (bool_decide (is_Some (m !! k))).
Proof. reflexivity. Qed.

(** ** The world monad *)

Lemma IO_bind_eq {A B} (m : IO A) (f : A → IO B) (w : world) :
  (m ≫= f) w =
    match m w with
    | (Ok a, w') => f a w'
    | (Raise e, w') => (Raise e, w')
    end.
Proof. reflexivity. Qed.

Lemma lift_bind {A B} (r : result A) (f : A → IO B) (w : world) :
  (lift r ≫= f) w =
    match r with
    | Ok a => f a w
    | Raise e => (Raise e, w)
    end.
Proof. by destruct r. Qed.

Lemma print_bind {B} (line : string) (f : () → IO B) (w : world) :
  (print line ≫= f) w = f () (print line w).2.
Proof. reflexivity. Qed.

(** ** Records and counts *)

Lemma has_fields_getitem fields d k :
  has_fields fields d = true → k ∈ fields → ∃ v, getitem d k = Ok v.
Proof.
  destruct d as [| | | | | |m]; try done. simpl.
  intros Hall Hk. rewrite forallb_forall in Hall.
  apply list_elem_of_In, Hall, bool_decide_eq_true in Hk as [v Hv].
  exists v. by rewrite Hv.
Qed.

Lemma complete_expert_fields expert_info :
  complete_expert expert_info = true →
  ∃ name description emoji target_users competencies,
    getitem expert_info "name" = Ok name
    ∧ getitem expert_info "description" = Ok description
    ∧ getitem expert_info "emoji" = Ok emoji
    ∧ getitem expert_info "target_users" = Ok target_users
    ∧ getitem expert_info "core_competencies" = Ok competencies.
Proof.
  unfold complete_expert. intros [H _]%andb_prop.
  destruct (has_fields_getitem _ _ "name" H) as [name ?]; [set_solver|].
  destruct (has_fields_getitem _ _ "description" H) as [description ?]; [set_solver|].
  destruct (has_fields_getitem _ _ "emoji" H) as [emoji ?]; [set_solver|].
  destruct (has_fields_getitem _ _ "target_users" H) as [target_users ?]; [set_solver|].
  destruct (has_fields_getitem _ _ "core_competencies" H) as [competencies ?];
    [set_solver|].
  by exists name, description, emoji, target_users, competencies.
Qed.

Lemma in_both_insert industries experts key industry' k :
  is_Some (industries !! key) →
  in_both (<[key := industry']> industries) experts k = in_both industries experts k.
Proof.
  intros Hkey. unfold in_both. f_equal. apply bool_decide_ext.
  destruct (decide (key = k)) as [->|Hne].
  - rewrite lookup_insert_eq. split; eauto.
  - by rewrite lookup_insert_ne.
Qed.

Lemma count_in_both_insert industries experts key industry' keys :
  is_Some (industries !! key) →
  count_in_both (<[key := industry']> industries) experts keys
  = count_in_both industries experts keys.
Proof.
  intros Hkey. unfold count_in_both. do 2 f_equal.
  induction keys as [|k keys IH]; [done|]. simpl.
  by rewrite IH, in_both_insert.
Qed.

Lemma count_in_both_cons industries experts key keys :
  count_in_both industries experts (key :: keys)
  = (if in_both industries experts key then 1 else 0)
    + count_in_both industries experts keys.
Proof.
  unfold count_in_both. simpl.
  destruct (in_both industries experts key); simpl length; lia.
Qed.

Lemma in_both_true industries experts key :
  in_both industries experts key = true ↔
  ∃ industry expert_info,
    industries !! key = Some industry ∧ experts !! key = Some expert_info.
Proof.
  unfold in_both. rewrite andb_true_iff, !bool_decide_eq_true. split.
  - intros [[industry ?] [expert_info ?]]. by exists industry, expert_info.
  - intros (industry & expert_info & ? & ?). split; eauto.
Qed.

Section Loop.
Variable repr : json → string.

Lemma copy_field_catalog src experts top industries key industry expert_info field source :
  experts_of src = Some experts →
  experts !! key = Some expert_info →
  industries !! key = Some industry →
  copy_field src key key field source (catalog top industries) =
    industry' ← set_field expert_info field source industry;
    Ok (catalog top (<[key := industry']> industries)).
Proof.
  intros HS He Hi. unfold copy_field, set_field.
  rewrite (getpath_expert _ _ _ _ _ HS He). cbn [getpath].
  destruct (getitem expert_info source) as [v|e]; rewrite ?bind_Ok, ?bind_Raise; [|done].
  by rewrite (mutate_catalog_industry _ _ _ _ [] _ Hi).
Qed.

Lemma update_expert_skip src experts top industries key n w :
  experts_of src = Some experts →
  in_both industries experts key = false →
  update_expert repr src key key (catalog top industries) n w =
    (Ok (catalog top industries, n), w).
Proof.
  intros HS Hb. unfold update_expert.
  rewrite lift_bind, getitem_catalog_industries. cbv beta iota.
  rewrite lift_bind, contains_obj. cbv beta iota.
  unfold in_both in Hb.
  destruct (bool_decide (is_Some (industries !! key))); simpl in Hb.
  - rewrite IO_bind_eq, lift_bind, (getitem_experts _ _ HS). cbv beta iota.
    unfold lift at 1. rewrite contains_obj, Hb. done.
  - done.
Qed.

Lemma update_expert_in_both src experts top industries key industry expert_info n w :
  experts_of src = Some experts →
  industries !! key = Some industry →
  experts !! key = Some expert_info →
  update_expert repr src key key (catalog top industries) n w =
    (name ← lift (getitem expert_info "name");
     print ("🔄 更新 " +:+ str repr name +:+ " 专家...");;
     industry' ← lift (merge_industry repr src key expert_info industry);
     print ("✅ " +:+ str repr name +:+ " 更新完成");;
     mret (catalog top (<[key := industry']> industries), n + 1)) w.
Proof.
  intros HS Hi He. unfold update_expert.
  rewrite lift_bind, getitem_catalog_industries. cbv beta iota.
  rewrite lift_bind, contains_obj. cbv beta iota.
  rewrite (bool_decide_eq_true_2 _ (mk_is_Some _ _ Hi)).
  rewrite IO_bind_eq, lift_bind, (getitem_experts _ _ HS). cbv beta iota.
  unfold lift at 1. rewrite contains_obj. cbv beta iota.
  rewrite (bool_decide_eq_true_2 _ (mk_is_Some _ _ He)).
  rewrite (lift_bind (getpath _ _)), (getpath_expert _ _ _ _ _ HS He), getpath_single.
  rewrite (lift_bind (getitem _ _)).
  destruct (getitem expert_info "name") as [name|e] eqn:Hname; [|done].
  rewrite !print_bind.
  rewrite (lift_bind (merge_industry _ _ _ _ _)). unfold merge_industry.
  rewrite (lift_bind (copy_field _ _ _ _ _ _)),
    (copy_field_catalog _ _ _ _ _ _ _ _ _ HS He Hi).
  destruct (set_field expert_info "name" "name" industry) as [i1|e];
    rewrite ?bind_Ok, ?bind_Raise; [|done].
  do 4 (rewrite (lift_bind (copy_field _ _ _ _ _ _)),
    (copy_field_catalog _ _ _ _ _ _ _ _ _ HS He (lookup_insert_eq _ _ _));
    match goal with
    | |- context [set_field ?x ?f ?s ?i] => destruct (set_field x f s i) as [?|?]
    end; rewrite ?bind_Ok, ?bind_Raise; [rewrite insert_insert_eq|done]).
  rename a2 into i5.
  rewrite (lift_bind (_ ≫= _)),
    (getpath_catalog_industry _ _ _ _ _ (lookup_insert_eq _ _ _)), getpath_single.
  destruct (getitem i5 "templates") as [templates|e];
    rewrite ?bind_Ok, ?bind_Raise; [|done].
  destruct (getindex templates 0) as [original_template|e];
    rewrite ?bind_Ok, ?bind_Raise; [|done].
  rewrite (lift_bind (create_optimized_template _ _ _ _)).
  destruct (create_optimized_template repr key src original_template)
    as [optimized_template|e]; rewrite ?bind_Ok, ?bind_Raise; [|done].
  rewrite (lift_bind (mutate _ _ _)),
    (mutate_catalog_industry _ _ _ _ _ _ (lookup_insert_eq _ _ _)).
  destruct (mutate ["templates"] (insert_front optimized_template) i5)
    as [i6|e]; rewrite ?bind_Ok, ?bind_Raise; [rewrite insert_insert_eq|done].
  rewrite (lift_bind (_ ≫= _)),
    (getpath_catalog_industry _ _ _ _ _ (lookup_insert_eq _ _ _)), getpath_single.
  destruct (getitem i6 "templates") as [templates'|e];
    rewrite ?bind_Ok, ?bind_Raise; [|done].
  destruct (len templates') as [n0|e]; rewrite ?bind_Ok, ?bind_Raise; [|done].
  rewrite IO_bind_eq.
  destruct (decide (n0 > 10)) as [Hn|Hn].
  - rewrite (lift_bind (slice_to _ _)).
    destruct (slice_to 10 templates') as [first_ten|e];
      rewrite ?bind_Ok, ?bind_Raise; [|done].
    unfold lift at 1.
    rewrite (mutate_catalog_industry _ _ _ _ [] _ (lookup_insert_eq _ _ _)).
    cbn [mutate].
    destruct (setitem i6 "templates" first_ten) as [i7|e];
      rewrite ?bind_Ok, ?bind_Raise; [rewrite insert_insert_eq|done].
    by rewrite lift_bind.
  - unfold mret at 1, IO_ret. by rewrite lift_bind.
Qed.

(** *** One industry record *)

Lemma merge_industry_inv src key expert_info industry industry' :
  merge_industry repr src key expert_info industry = Ok industry' →
  ∃ ind name description emoji target_users core_competencies t0 ts optimized,
    industry = JObj ind
    ∧ getitem expert_info "name" = Ok name
    ∧ getitem expert_info "description" = Ok description
    ∧ getitem expert_info "emoji" = Ok emoji
    ∧ getitem expert_info "target_users" = Ok target_users
    ∧ getitem expert_info "core_competencies" = Ok core_competencies
    ∧ ind !! "templates" = Some (JArr (t0 :: ts))
    ∧ create_optimized_template repr key src t0 = Ok optimized
    ∧ industry' =
        JObj (<["templates" := JArr (take 10 (optimized :: t0 :: ts))]>
                (overwritten name description emoji target_users
                             core_competencies ind)).
Proof.
  unfold merge_industry, set_field. intros H.
  repeat match type of H with
         | (_ ≫= _) = Ok _ =>
             let x := fresh "x" in let Hx := fresh "Hx" in
             apply bind_inv_Ok in H as (x & Hx & H)
         end.
  apply bind_inv_Ok in Hx as (name & Hname & (ind & -> & ->)%setitem_Ok).
  apply bind_inv_Ok in Hx0 as (description & Hdescription & (? & [= <-] & ->)%setitem_Ok).
  apply bind_inv_Ok in Hx1 as (emoji & Hemoji & (? & [= <-] & ->)%setitem_Ok).
  apply bind_inv_Ok in Hx2 as (target_users & Htarget & (? & [= <-] & ->)%setitem_Ok).
  apply bind_inv_Ok in Hx3 as (competencies & Hcomp & (? & [= <-] & ->)%setitem_Ok).
  fold (overwritten name description emoji target_users competencies ind) in *.
  apply bind_inv_Ok in Hx4 as (templates & Htemplates & Hhead).
  rewrite getitem_obj, lookup_overwritten_templates in Htemplates.
  cbn [mutate] in Hx6. rewrite getitem_obj, lookup_overwritten_templates in Hx6.
  destruct (ind !! "templates") as [tv|] eqn:Htv; [|done].
  injection Htemplates as ->. rewrite bind_Ok in Hx6.
  apply bind_inv_Ok in Hx6 as (templates' & Hins & [= <-]).
  destruct templates as [| | | | |xs|]; try done.
  injection Hins as <-.
  destruct xs as [|t0 ts]; [done|]. injection Hhead as <-.
  cbn [put_back] in *.
  rewrite getitem_insert_eq, bind_Ok in Hx7. rewrite getitem_insert_eq in H.
  injection Hx7 as <-.
  exists ind, name, description, emoji, target_users, competencies, t0, ts, x5.
  repeat (split; [done|]).
  destruct (decide _) as [Hn|Hn].
  - rewrite !bind_Ok in H. cbn [slice_to setitem] in H. rewrite bind_Ok in H.
    cbn [setitem] in H. injection H as <-. by rewrite insert_insert_eq.
  - injection H as <-. rewrite take_ge; [done|]. cbn [length]. lia.
Qed.

Lemma merge_industry_Ok src key expert_info ind
    name description emoji target_users competencies t0 ts optimized :
  getitem expert_info "name" = Ok name →
  getitem expert_info "description" = Ok description →
  getitem expert_info "emoji" = Ok emoji →
  getitem expert_info "target_users" = Ok target_users →
  getitem expert_info "core_competencies" = Ok competencies →
  ind !! "templates" = Some (JArr (t0 :: ts)) →
  create_optimized_template repr key src t0 = Ok optimized →
  merge_industry repr src key expert_info (JObj ind) =
    Ok (JObj (<["templates" := JArr (take 10 (optimized :: t0 :: ts))]>
                (overwritten name description emoji target_users competencies ind))).
Proof.
  intros Hname Hdescription Hemoji Htarget Hcomp Htemplates Hopt.
  unfold merge_industry, set_field.
  rewrite Hname, Hdescription, Hemoji, Htarget, Hcomp.
  repeat (progress (cbn [setitem]; rewrite ?bind_Ok)).
  fold (overwritten name description emoji target_users competencies ind).
  rewrite getitem_obj, lookup_overwritten_templates, Htemplates, !bind_Ok.
  cbn [getindex lookup list_lookup]. rewrite bind_Ok, Hopt, bind_Ok.
  cbn [mutate]. rewrite getitem_obj, lookup_overwritten_templates, Htemplates, !bind_Ok.
  cbn [insert_front put_back]. rewrite !bind_Ok, !getitem_insert_eq, !bind_Ok.
  cbn [len slice_to]. rewrite !bind_Ok.
  destruct (decide _) as [Hn|Hn].
  - rewrite ?bind_Ok. cbn [setitem]. by rewrite insert_insert_eq.
  - rewrite take_ge; [done|]. cbn [length] in *. lia.
Qed.


(** *** The template builder *)

Lemma create_optimized_template_id key src original_template optimized :
  create_optimized_template repr key src original_template = Ok optimized →
  getitem optimized "id" = Ok (JStr (key +:+ "-professional-consultation")).
Proof.
  unfold create_optimized_template. intros H.
  repeat match type of H with
         | (_ ≫= _) = Ok _ =>
             let x := fresh "x" in let Hx := fresh "Hx" in
             apply bind_inv_Ok in H as (x & Hx & H)
         end.
  injection H as <-. reflexivity.
Qed.

Lemma create_optimized_template_complete src experts key expert_info original_template :
  experts_of src = Some experts →
  experts !! key = Some expert_info →
  complete_expert expert_info = true →
  ∃ optimized, create_optimized_template repr key src original_template = Ok optimized.
Proof.
  intros Hsrc He Hc.
  destruct (complete_expert_fields _ Hc)
    as (name & description & emoji & target_users & competencies
        & Hname & Hdescription & Hemoji & Htarget & Hcomp).
  unfold complete_expert in Hc. apply andb_prop in Hc as [_ Hp].
  destruct (getitem expert_info "optimized_prompt") as [p|] eqn:Hprompt; [|done].
  destruct (has_fields_getitem _ _ "system" Hp) as [system Hsystem]; [set_solver|].
  destruct (has_fields_getitem _ _ "context" Hp) as [context Hcontext]; [set_solver|].
  destruct (has_fields_getitem _ _ "task_framework" Hp) as [task Htask]; [set_solver|].
  destruct (has_fields_getitem _ _ "output_format" Hp) as [format Hformat]; [set_solver|].
  destruct (has_fields_getitem _ _ "safety_guidelines" Hp) as [safety Hsafety];
    [set_solver|].
  unfold create_optimized_template.
  rewrite (getitem_experts _ _ Hsrc), bind_Ok, getitem_obj, He, bind_Ok.
  cbn [getpath].
  rewrite Hname, Hdescription, Hprompt, Hcomp, Htarget, !bind_Ok.
  rewrite Hsystem, Hcontext, Htask, Hformat, Hsafety, !bind_Ok.
  eauto.
Qed.

(** *** The loop *)

Lemma merge_industry_name_Raise src key expert_info industry e :
  getitem expert_info "name" = Raise e →
  merge_industry repr src key expert_info industry = Raise e.
Proof. intros H. unfold merge_industry, set_field. by rewrite H. Qed.

(** The loop computes [merge_industries] on the [industries] mapping,
    counts the keys found in both mappings, and touches neither the files
    nor the clock. *)
Lemma update_experts_spec src experts top keys :
  experts_of src = Some experts →
  ∀ industries n w, ∃ w',
    update_experts repr src (identity_mapping keys) (catalog top industries) n w =
      (industries' ← merge_industries repr src experts keys industries;
       Ok (catalog top industries', n + count_in_both industries experts keys), w')
    ∧ files w' = files w ∧ clock w' = clock w ∧ ticks w' = ticks w.
Proof.
  intros Hsrc. induction keys as [|key keys IH]; intros industries n w.
  - exists w. split; [|done]. simpl. unfold count_in_both. simpl.
    by rewrite Z.add_0_r.
  - change (identity_mapping (key :: keys)) with ((key, key) :: identity_mapping keys).
    cbn [update_experts merge_industries].
    rewrite IO_bind_eq, count_in_both_cons.
    destruct (in_both industries experts key) eqn:Hboth.
    + pose proof Hboth as (industry & expert_info & Hi & He)%in_both_true.
      rewrite (update_expert_in_both _ _ _ _ _ _ _ _ _ Hsrc Hi He), Hi, He.
      rewrite lift_bind.
      destruct (getitem expert_info "name") as [name|e] eqn:Hname.
      * rewrite print_bind, lift_bind.
        destruct (merge_industry repr src key expert_info industry)
          as [industry'|e] eqn:Hmerge.
        -- rewrite print_bind. unfold mret at 1, IO_ret.
           edestruct (IH (<[key := industry']> industries) (n + 1))
             as (w' & -> & Hf & Hc & Ht).
           exists w'. rewrite bind_Ok, count_in_both_insert by eauto.
           split; [|done]. by rewrite Z.add_assoc.
        -- eexists. split; [by rewrite bind_Raise|done].
      * rewrite (merge_industry_name_Raise _ _ _ _ _ Hname), bind_Raise.
        by exists w.
    + rewrite (update_expert_skip _ _ _ _ _ _ _ Hsrc Hboth). cbv beta iota.
      destruct (IH industries n w) as (w' & -> & Hw'). exists w'.
      split; [|done]. rewrite Z.add_0_l.
      destruct (industries !! key) as [industry|] eqn:Hi; [|done].
      destruct (experts !! key) as [expert_info|] eqn:He; [|done].
      assert (in_both industries experts key = true) by (apply in_both_true; eauto).
      congruence.
Qed.

(** An industry is left alone unless its key is in the table and in both
    mappings. *)
Lemma merge_industries_frame src experts keys :
  ∀ industries industries',
    merge_industries repr src experts keys industries = Ok industries' →
    ∀ key, key ∉ keys ∨ in_both industries experts key = false →
           industries' !! key = industries !! key.
Proof.
  induction keys as [|k keys IH]; intros industries industries' H key Hkey.
  - by injection H as <-.
  - cbn [merge_industries] in H.
    destruct (industries !! k) as [industry|] eqn:Hi; [|by eapply IH; set_solver].
    destruct (experts !! k) as [expert_info|] eqn:He; [|by eapply IH; set_solver].
    apply bind_inv_Ok in H as (industry' & Hmerge & H).
    assert (k ≠ key) as Hne.
    { intros ->. destruct Hkey as [Hkey|Hkey]; [set_solver|].
      assert (in_both industries experts key = true) by (apply in_both_true; eauto).
      congruence. }
    rewrite (IH _ _ H key).
    + by rewrite lookup_insert_ne.
    + rewrite in_both_insert by eauto. set_solver.
Qed.

(** An industry whose key is in the table and in both mappings is replaced
    by its merge. *)
Lemma merge_industries_lookup src experts keys :
  NoDup keys →
  ∀ industries industries',
    merge_industries repr src experts keys industries = Ok industries' →
    ∀ key industry expert_info,
      key ∈ keys →
      industries !! key = Some industry →
      experts !! key = Some expert_info →
      ∃ industry',
        merge_industry repr src key expert_info industry = Ok industry'
        ∧ industries' !! key = Some industry'.
Proof.
  induction 1 as [|k keys Hk Hnodup IH];
    intros industries industries' H key industry expert_info Hkey Hi He.
  - set_solver.
  - cbn [merge_industries] in H.
    destruct (decide (key = k)) as [->|Hne].
    + rewrite Hi, He in H. apply bind_inv_Ok in H as (industry' & Hmerge & H).
      exists industry'. split; [done|].
      rewrite (merge_industries_frame _ _ _ _ _ H k) by auto.
      by rewrite lookup_insert_eq.
    + assert (key ∈ keys) by set_solver.
      destruct (industries !! k) as [industry0|] eqn:Hi0; [|by eapply IH].
      destruct (experts !! k) as [expert_info0|] eqn:He0; [|by eapply IH].
      apply bind_inv_Ok in H as (industry' & Hmerge & H).
      eapply IH; [done..| |done]. by rewrite lookup_insert_ne.
Qed.

(** The loop completes when every merge it attempts does. *)
Lemma merge_industries_total src experts keys :
  NoDup keys →
  ∀ industries,
    (∀ key industry expert_info,
       key ∈ keys →
       industries !! key = Some industry →
       experts !! key = Some expert_info →
       ∃ industry', merge_industry repr src key expert_info industry = Ok industry') →
    ∃ industries', merge_industries repr src experts keys industries = Ok industries'.
Proof.
  induction 1 as [|k keys Hk Hnodup IH]; intros industries Hall.
  - by exists industries.
  - cbn [merge_industries].
    destruct (industries !! k) as [industry|] eqn:Hi;
      [|apply IH; intros; eapply Hall; [set_solver|done..]].
    destruct (experts !! k) as [expert_info|] eqn:He;
      [|apply IH; intros; eapply Hall; [set_solver|done..]].
    destruct (Hall k industry expert_info) as [industry' ->]; [set_solver|done..|].
    rewrite bind_Ok. apply IH. intros key industry0 expert_info0 Hkey Hi0 He0.
    rewrite lookup_insert_ne in Hi0 by set_solver.
    eapply Hall; [set_solver|done..].
Qed.

End Loop.

(** ** Files *)

Lemma backup_path_original stamp : backup_path stamp ≠ original_file.
Proof.
  intros H. apply (f_equal (String.get 55)) in H. vm_compute in H. discriminate.
Qed.

Lemma backup_path_optimized stamp : backup_path stamp ≠ optimized_file.
Proof.
  intros H. apply (f_equal (String.get 36)) in H. vm_compute in H. discriminate.
Qed.

Lemma original_optimized : original_file ≠ optimized_file.
Proof. done. Qed.

Lemma quiet_lift {A} (r : result A) : quiet (lift r).
Proof. by intros w. Qed.

Lemma quiet_print line : quiet (print line).
Proof. by intros w. Qed.

Lemma quiet_ret {A} (a : A) : quiet (mret a : IO A).
Proof. by intros w. Qed.

Lemma quiet_bind {A B} (m : IO A) (f : A → IO B) :
  quiet m → (∀ a, quiet (f a)) → quiet (m ≫= f).
Proof.
  intros Hm Hf w. rewrite IO_bind_eq. specialize (Hm w).
  destruct (m w) as [[a|e] w1]; simpl in Hm; [|done].
  destruct (Hf a w1) as (-> & -> & ->). done.
Qed.

Lemma quiet_keeps {A} path (m : IO A) : quiet m → keeps path m.
Proof. intros Hm w. by destruct (Hm w) as [-> _]. Qed.

Lemma keeps_bind {A B} path (m : IO A) (f : A → IO B) :
  keeps path m → (∀ a, keeps path (f a)) → keeps path (m ≫= f).
Proof.
  intros Hm Hf w. rewrite IO_bind_eq. specialize (Hm w).
  destruct (m w) as [[a|e] w1]; simpl in Hm; [|done].
  by rewrite Hf.
Qed.

Lemma keeps_save path data file_path :
  path ≠ file_path → keeps path (save_json_file data file_path).
Proof. intros Hne w. simpl. by rewrite lookup_insert_ne. Qed.

Lemma keeps_now path format : keeps path (now_strftime format).
Proof. by intros w. Qed.

Lemma keeps_lift {A} path (r : result A) : keeps path (lift r).
Proof. by intros w. Qed.

Lemma keeps_print path line : keeps path (print line).
Proof. by intros w. Qed.

Lemma keeps_ret {A} path (a : A) : keeps path (mret a : IO A).
Proof. by intros w. Qed.

Lemma now_bind {B} (format : string) (f : string → IO B) (w : world) :
  (now_strftime format ≫= f) w
  = f (strftime format (clock w (ticks w))) (now_strftime format w).2.
Proof. reflexivity. Qed.

Lemma save_bind {B} data file_path (f : () → IO B) (w : world) :
  (save_json_file data file_path ≫= f) w = f () (save_json_file data file_path w).2.
Proof. reflexivity. Qed.

Lemma load_bind {B} file_path data (f : json → IO B) (w : world) :
  files w !! file_path = Some (Document data) →
  (load_json_file file_path ≫= f) w = f data w.
Proof. intros H. rewrite IO_bind_eq. unfold load_json_file. by rewrite H. Qed.

Lemma stamp_version_obj backup_file n m w :
  stamp_version backup_file n (JObj m) w =
    (Ok (JObj (stamped backup_file
                 (strftime "%Y-%m-%d" (clock w (ticks w)))
                 (strftime "%Y-%m-%d %H:%M:%S" (clock w (S (ticks w))))
                 n m)),
     (now_strftime "%Y-%m-%d %H:%M:%S" (now_strftime "%Y-%m-%d" w).2).2).
Proof. reflexivity. Qed.

Lemma stamp_version_not_obj backup_file n document w :
  (∀ m, document ≠ JObj m) →
  stamp_version backup_file n document w = (Raise TypeError, w).
Proof. intros H. destruct document; try done. by destruct (H m). Qed.

Section Run.
Variable repr : json → string.

Lemma quiet_update_expert src key key' original_data n :
  quiet (update_expert repr src key key' original_data n).
Proof.
  unfold update_expert.
  repeat first
    [ apply quiet_lift | apply quiet_print | apply quiet_ret
    | apply quiet_bind; [|intros ?]
    | match goal with |- quiet (if ?b then _ else _) => destruct b end ].
Qed.

Lemma quiet_update_experts src items :
  ∀ original_data n, quiet (update_experts repr src items original_data n).
Proof.
  induction items as [|[key key'] items IH]; intros original_data n.
  - apply quiet_ret.
  - cbn [update_experts]. apply quiet_bind; [apply quiet_update_expert|].
    intros [original_data' n']. apply IH.
Qed.

(** The whole run, for a world whose two input files parse: the backup is
    written first; the loop runs in the world after the backup; a raise in
    the loop ends the run there; otherwise the stamped catalog is saved. *)
Lemma run_loaded w C src :
  files w !! original_file = Some (Document C) →
  files w !! optimized_file = Some (Document src) →
  let backup_file := backup_path (strftime "%Y%m%d_%H%M%S" (clock w (ticks w))) in
  ∃ wb r w1,
    files wb = <[backup_file := Document C]> (files w)
    ∧ clock wb = clock w ∧ ticks wb = S (ticks w)
    ∧ update_experts repr src expert_mapping C 0 wb = (r, w1)
    ∧ match r with
      | Raise e => update_expert_templates repr w = (Raise e, w1)
      | Ok (JObj m, n) =>
          ∃ w', update_expert_templates repr w = (Ok true, w')
            ∧ files w' =
                <[original_file :=
                    Document (JObj (stamped backup_file
                      (strftime "%Y-%m-%d" (clock w (S (ticks w))))
                      (strftime "%Y-%m-%d %H:%M:%S" (clock w (S (S (ticks w)))))
                      n m))]>
                  (<[backup_file := Document C]> (files w))
            ∧ clock w' = clock w ∧ ticks w' = S (S (S (ticks w)))
      | Ok (_, n) => update_expert_templates repr w = (Raise TypeError, w1)
      end.
Proof.
  intros HC Hsrc backup_file. unfold update_expert_templates.
  rewrite now_bind, print_bind, (load_bind _ C) by exact HC.
  rewrite print_bind, (load_bind _ src) by exact Hsrc.
  rewrite print_bind, save_bind. fold backup_file.
  set (wb := (save_json_file C backup_file _).2).
  destruct (quiet_update_experts src expert_mapping C 0 wb) as (Hf & Hc & Ht).
  rewrite IO_bind_eq.
  destruct (update_experts repr src expert_mapping C 0 wb) as [r w1] eqn:Hloop.
  exists wb, r, w1. simpl in Hf, Hc, Ht.
  split; [done|]. split; [done|]. split; [done|]. split; [done|].
  destruct r as [[C' n]|e]; [|done].
  destruct C' as [| | | | | |m]; try done.
  rewrite IO_bind_eq, stamp_version_obj, print_bind, save_bind.
  rewrite lift_bind, getitem_obj.
  unfold stamped at 1. rewrite lookup_insert_ne, lookup_insert_ne, lookup_insert_eq by done.
  rewrite print_bind. eexists. split; [reflexivity|].
  simpl. rewrite Hf, Hc, Ht. done.
Qed.
End Run.

(** ** The table *)

Lemma expert_keys_five :
  expert_keys = ["teacher"; "lawyer"; "accountant"; "realtor"; "insurance"].
Proof. reflexivity. Qed.

Lemma expert_mapping_identity : expert_mapping = identity_mapping expert_keys.
Proof. reflexivity. Qed.

Lemma NoDup_expert_keys : NoDup expert_keys.
Proof. by apply (bool_decide_unpack _). Qed.

Lemma templates_of_Some industry l :
  templates_of industry = Some l ↔
  ∃ ind, industry = JObj ind ∧ ind !! "templates" = Some (JArr l).
Proof.
  split.
  - destruct industry as [| | | | | |ind]; simpl; try done.
    destruct (ind !! "templates") as [[| | | | |l'|]|] eqn:E; try done.
    intros [= ->]. by exists ind.
  - intros (ind & -> & E). simpl. by rewrite E.
Qed.

Section Merge.
Variable repr : json → string.

(** The loop of the script on documents of the expected shape. *)
Lemma update_experts_shape src top industries experts w :
  experts_of src = Some experts →
  ∃ w',
    update_experts repr src expert_mapping (catalog top industries) 0 w =
      (industries' ← merge_industries repr src experts expert_keys industries;
       Ok (catalog top industries', count_in_both industries experts expert_keys),
       w')
    ∧ files w' = files w ∧ clock w' = clock w ∧ ticks w' = ticks w.
Proof.
  intros Hsrc.
  destruct (update_experts_spec repr src experts top expert_keys Hsrc industries 0 w)
    as (w' & Heq & Hw').
  exists w'. rewrite expert_mapping_identity, Heq. by rewrite Z.add_0_l.
Qed.

Lemma update_experts_Ok_inv src top industries experts w C' n w' :
  experts_of src = Some experts →
  update_experts repr src expert_mapping (catalog top industries) 0 w
    = (Ok (C', n), w') →
  ∃ industries',
    C' = catalog top industries'
    ∧ merge_industries repr src experts expert_keys industries = Ok industries'
    ∧ n = count_in_both industries experts expert_keys
    ∧ files w' = files w.
Proof.
  intros Hsrc Hrun.
  destruct (update_experts_shape src top industries experts w Hsrc)
    as (w1 & Heq & Hf & _).
  rewrite Heq in Hrun. injection Hrun as Hr <-.
  apply bind_inv_Ok in Hr as (industries' & Hmerge & [= <- <-]).
  by exists industries'.
Qed.

Lemma mergeable_merge_industry src industries experts keys key industry expert_info :
  experts_of src = Some experts →
  mergeable industries experts keys →
  key ∈ keys →
  industries !! key = Some industry →
  experts !! key = Some expert_info →
  ∃ industry', merge_industry repr src key expert_info industry = Ok industry'.
Proof.
  intros Hsrc Hm Hkey Hi He.
  destruct (Hm key industry expert_info Hkey Hi He)
    as (Hc & t0 & ts & (ind & -> & Ht)%templates_of_Some).
  destruct (complete_expert_fields _ Hc)
    as (name & description & emoji & target_users & competencies
        & Hname & Hdescription & Hemoji & Htarget & Hcomp).
  destruct (create_optimized_template_complete repr src experts key expert_info t0
              Hsrc He Hc) as [optimized Hopt].
  eexists. by eapply merge_industry_Ok.
Qed.

(** The loop completes on mergeable documents. *)
Lemma update_experts_mergeable src C industries experts w :
  industries_of C = Some industries →
  experts_of src = Some experts →
  mergeable industries experts expert_keys →
  ∃ C' n w', update_experts repr src expert_mapping C 0 w = (Ok (C', n), w').
Proof.
  intros [top ->]%catalog_of_industries Hsrc Hm.
  destruct (update_experts_shape src top industries experts w Hsrc)
    as (w' & Heq & _).
  destruct (merge_industries_total repr src experts expert_keys NoDup_expert_keys
              industries) as [industries' Hmerge].
  { intros key industry expert_info Hkey Hi He.
    by eapply mergeable_merge_industry. }
  rewrite Hmerge, bind_Ok in Heq. eauto.
Qed.

End Merge.

(** ** The stamped catalog *)


Lemma stamped_version backup_file today date n m :
  getitem (JObj (stamped backup_file today date n m)) "version"
  = Ok (JStr "2025.2-optimized").
Proof.
  unfold stamped.
  by rewrite getitem_obj, lookup_insert_ne, lookup_insert_ne, lookup_insert_eq.
Qed.


Lemma stamped_optimizationInfo backup_file today date n m :
  ∃ info,
    getitem (JObj (stamped backup_file today date n m)) "optimizationInfo" = Ok info
    ∧ getitem info "optimizedBy" = Ok (JStr "Claude Code AI Prompt Generator")
    ∧ getitem info "optimizationDate" = Ok (JStr date)
    ∧ getitem info "features" = Ok (strings features)
    ∧ getitem info "expertCount" = Ok (JInt n)
    ∧ getitem info "backupFile" = Ok (JStr (basename backup_file)).
Proof.
  unfold stamped. eexists. rewrite getitem_insert_eq. split; [reflexivity|].
  by repeat split.
Qed.

Lemma stamped_expert_count backup_file today date n m :
  expert_count (JObj (stamped backup_file today date n m)) = Ok (JInt n).
Proof.
  unfold expert_count. cbn [getpath].
  destruct (stamped_optimizationInfo backup_file today date n m)
    as (info & -> & _ & _ & _ & Hn & _).
  by rewrite !bind_Ok, Hn.
Qed.

Lemma stamped_industries backup_file today date n top industries :
  JObj (stamped backup_file today date n (<["industries" := JObj industries]> top))
  = catalog (stamped backup_file today date n top) industries.
Proof.
  unfold catalog, stamped. f_equal.
  rewrite (insert_insert_ne _ "industries" "optimizationInfo") by done.
  rewrite (insert_insert_ne _ "industries" "lastUpdated") by done.
  by rewrite (insert_insert_ne _ "industries" "version").
Qed.

Section Whole.
Variable repr : json → string.

(** The whole run on documents of the expected shape: it ends as the loop
    over the [industries] mapping ends. *)
Lemma run_shape w top src industries experts :
  files w !! original_file = Some (Document (catalog top industries)) →
  files w !! optimized_file = Some (Document src) →
  experts_of src = Some experts →
  let backup_file := backup_path (strftime "%Y%m%d_%H%M%S" (clock w (ticks w))) in
  ∃ w',
    clock w' = clock w
    ∧ match merge_industries repr src experts expert_keys industries with
      | Ok industries' =>
          update_expert_templates repr w = (Ok true, w')
          ∧ files w' =
              <[original_file :=
                  Document (catalog
                    (stamped backup_file
                       (strftime "%Y-%m-%d" (clock w (S (ticks w))))
                       (strftime "%Y-%m-%d %H:%M:%S" (clock w (S (S (ticks w)))))
                       (count_in_both industries experts expert_keys) top)
                    industries')]>
                (<[backup_file := Document (catalog top industries)]> (files w))
          ∧ ticks w' = S (S (S (ticks w)))
      | Raise e =>
          update_expert_templates repr w = (Raise e, w')
          ∧ files w' = <[backup_file := Document (catalog top industries)]> (files w)
      end.
Proof.
  intros HC Hsrc He backup_file.
  destruct (run_loaded repr w _ src HC Hsrc) as (wb & r & w1 & Hf & Hc & Ht & Hloop & Hr).
  destruct (update_experts_shape repr src top industries experts wb He)
    as (w1' & Heq & Hf1 & Hc1 & Ht1).
  rewrite Heq in Hloop. clear Heq.
  remember (merge_industries repr src experts expert_keys industries) as merged.
  destruct merged as [industries'|e]; rewrite ?bind_Ok, ?bind_Raise in Hloop;
    injection Hloop as <- <-.
  - cbv beta iota delta [catalog] in Hr.
    destruct Hr as (w' & Hrun & Hfiles & Hclock & Hticks).
    exists w'. rewrite <- stamped_industries. done.
  - exists w1'. split; [by rewrite Hc1|].
    split; [done|by rewrite Hf1].
Qed.
End Whole.

(** * The claims *)

Lemma take_shifted {A} (x : A) (l : list A) :
  x :: take 8 l = take 9 l ↔ take 9 l = replicate 9 x.
Proof.
  do 9 (destruct l as [|? l]; [simpl; split; intros; simplify_eq|]).
  simpl. split; intros; by simplify_eq.
Qed.

Lemma count_in_both_ext industries industries' experts keys :
  (∀ key, is_Some (industries' !! key) ↔ is_Some (industries !! key)) →
  count_in_both industries' experts keys = count_in_both industries experts keys.
Proof.
  intros H. unfold count_in_both. do 2 f_equal.
  induction keys as [|k keys IH]; [done|]. simpl. rewrite IH.
  replace (in_both industries' experts k) with (in_both industries experts k); [done|].
  unfold in_both. f_equal. by apply bool_decide_ext.
Qed.

Lemma templates_at_catalog top industries key :
  templates_at key (catalog top industries)
  = industry ← getitem (JObj industries) key; getitem industry "templates".
Proof.
  unfold templates_at.
  change (getpath ?c [?a; ?b; ?d]) with
    (x ← getitem c a; y ← getitem x b; getpath y [d]).
  rewrite getitem_catalog_industries, bind_Ok.
  destruct (getitem (JObj industries) key) as [industry|]; [|done].
  by rewrite !bind_Ok, getpath_single.
Qed.

Section Claims.
Variable repr : json → string.
Variable message : exception → string.

Lemma merged_templates src experts industries industries' key :
  merge_industries repr src experts expert_keys industries = Ok industries' →
  key ∈ expert_keys →
  is_Some (industries !! key) →
  is_Some (experts !! key) →
  ∃ ind ind' t0 ts optimized,
    industries !! key = Some (JObj ind)
    ∧ ind !! "templates" = Some (JArr (t0 :: ts))
    ∧ create_optimized_template repr key src t0 = Ok optimized
    ∧ industries' !! key = Some (JObj ind')
    ∧ ind' !! "templates" = Some (JArr (take 10 (optimized :: t0 :: ts))).
Proof.
  intros Hmerge Hkey [industry Hi] [expert_info He].
  destruct (merge_industries_lookup repr src experts expert_keys NoDup_expert_keys
              _ _ Hmerge key industry expert_info Hkey Hi He)
    as (industry' & Hone & Hi').
  apply merge_industry_inv in Hone
    as (ind & name & description & emoji & target_users & competencies
        & t0 & ts & optimized & -> & _ & _ & _ & _ & _ & Ht & Hopt & ->).
  eexists ind, _, t0, ts, optimized. repeat (split; [done|]).
  by rewrite lookup_insert_eq.
Qed.

Lemma merge_industries_is_Some src experts industries industries' :
  merge_industries repr src experts expert_keys industries = Ok industries' →
  ∀ key, is_Some (industries' !! key) ↔ is_Some (industries !! key).
Proof.
  intros Hmerge key.
  destruct (decide (key ∈ expert_keys ∧ is_Some (industries !! key)
                    ∧ is_Some (experts !! key))) as [(Hkey & Hi & He)|Hnot].
  - destruct (merged_templates _ _ _ _ _ Hmerge Hkey Hi He)
      as (? & ? & ? & ? & ? & -> & _ & _ & -> & _). split; eauto.
  - rewrite (merge_industries_frame _ _ _ _ _ _ Hmerge); [done|].
    destruct (decide (key ∈ expert_keys)) as [Hin|]; [right|by left].
    destruct (in_both industries experts key) eqn:Hboth; [|done].
    apply in_both_true in Hboth as (? & ? & ? & ?). destruct Hnot. eauto.
Qed.

(** A completed run, on documents of the expected shape. *)
Lemma run_Ok_shape w top src industries experts b w' :
  files w !! original_file = Some (Document (catalog top industries)) →
  files w !! optimized_file = Some (Document src) →
  experts_of src = Some experts →
  update_expert_templates repr w = (Ok b, w') →
  ∃ top' industries',
    files w' !! original_file = Some (Document (catalog top' industries'))
    ∧ files w' !! optimized_file = Some (Document src)
    ∧ merge_industries repr src experts expert_keys industries = Ok industries'
    ∧ expert_count (catalog top' industries')
      = Ok (JInt (count_in_both industries experts expert_keys)).
Proof.
  intros HC Hsrc He Hrun.
  destruct (run_shape repr w top src industries experts HC Hsrc He)
    as (w1 & _ & Hcases).
  destruct (merge_industries repr src experts expert_keys industries)
    as [industries'|e]; destruct Hcases as [Hrun' Hcases]; [|congruence].
  rewrite Hrun in Hrun'. injection Hrun' as _ ->. destruct Hcases as [Hfiles _].
  eexists _, industries'. rewrite Hfiles.
  split; [by rewrite lookup_insert_eq|]. split; [|split; [done|]].
  - rewrite lookup_insert_ne by apply original_optimized.
    by rewrite lookup_insert_ne by apply backup_path_optimized.
  - rewrite <- stamped_industries. apply stamped_expert_count.
Qed.

(** The merge reads no file and no clock: what it returns is the same in
    every world. *)
Lemma update_experts_any_world src C industries experts w w' :
  industries_of C = Some industries →
  experts_of src = Some experts →
  (update_experts repr src expert_mapping C 0 w).1
  = (update_experts repr src expert_mapping C 0 w').1.
Proof.
  intros [top ->]%catalog_of_industries Hsrc.
  destruct (update_experts_shape repr src top industries experts w Hsrc)
    as (? & -> & _).
  by destruct (update_experts_shape repr src top industries experts w' Hsrc)
    as (? & -> & _).
Qed.



(** C3: an industry record changes only if its key is one of the five keys
    of the table and is in both documents.  For any other key the loop body
    returns at once, with the catalog, the count and the console as they
    were; after the whole merge every such record, and every top-level entry
    of the catalog other than [industries], is what it was. *)
Theorem other_industries_unchanged src C industries experts w :
  industries_of C = Some industries →
  experts_of src = Some experts →
  expert_keys = ["teacher"; "lawyer"; "accountant"; "realtor"; "insurance"]
  ∧ (∀ key n,
       ¬ (is_Some (industries !! key) ∧ is_Some (experts !! key)) →
       update_expert repr src key key C n w = (Ok (C, n), w))
  ∧ (∀ C' n w',
       update_experts repr src expert_mapping C 0 w = (Ok (C', n), w') →
       ∃ industries',
         industries_of C' = Some industries'
         ∧ (∀ key,
              ¬ (key ∈ expert_keys
                 ∧ is_Some (industries !! key) ∧ is_Some (experts !! key)) →
              industries' !! key = industries !! key)
         ∧ (∀ field, field ≠ "industries" → getitem C' field = getitem C field)).
Proof.
  intros HC Hsrc. split; [done|]. split.
  - intros key n Hnot.
    destruct (catalog_of_industries _ _ HC) as [top ->].
    apply (update_expert_skip repr src experts); [done|].
    destruct (in_both industries experts key) eqn:Hboth; [|done].
    apply in_both_true in Hboth as (? & ? & ? & ?). destruct Hnot. eauto.
  - intros C' n w' Hrun.
    destruct (catalog_of_industries _ _ HC) as [top ->].
    destruct (update_experts_Ok_inv _ _ _ _ _ _ _ _ _ Hsrc Hrun)
      as (industries' & -> & Hmerge & _ & _).
    exists industries'. split; [apply industries_of_catalog|]. split.
    + intros key Hnot.
      apply (merge_industries_frame _ _ _ _ _ _ Hmerge).
      destruct (decide (key ∈ expert_keys)) as [Hin|]; [right|by left].
      destruct (in_both industries experts key) eqn:Hboth; [|done].
      apply in_both_true in Hboth as (? & ? & ? & ?). destruct Hnot. eauto.
    + intros field Hne. unfold catalog.
      by rewrite !getitem_obj, !lookup_insert_ne.
Qed.

(** C10: the template built does not depend on the template passed as the
    third argument; it is determined by the key and by the expert's record
    in the source document. *)
Theorem optimized_template_ignores_original key src original original' :
  create_optimized_template repr key src original
  = create_optimized_template repr key src original'
  ∧ ∀ src', getpath src' ["experts"; key] = getpath src ["experts"; key] →
            create_optimized_template repr key src' original'
            = create_optimized_template repr key src original.
Proof.
  split; [done|]. intros src' H. unfold create_optimized_template.
  cbn [getpath] in H.
  assert (∀ d, (experts ← getitem d "experts"; child ← getitem experts key; Ok child)
               = (experts ← getitem d "experts"; getitem experts key)) as Hsimp.
  { intros d. destruct (getitem d "experts") as [x|]; [|done].
    rewrite !bind_Ok. by destruct (getitem x key). }
  rewrite !Hsimp in H.
  rewrite <- !(bind_assoc (getitem _ "experts")). by rewrite H.
Qed.

Lemma main_Raise w e w' :
  update_expert_templates repr w = (Raise e, w') →
  (main repr message w).1 = 1 ∧ files (main repr message w).2 = files w'.
Proof. intros H. unfold main. by rewrite H. Qed.

Lemma main_Ok w b w' :
  update_expert_templates repr w = (Ok b, w') → main repr message w = (0, w').
Proof. intros H. unfold main. by rewrite H. Qed.



(** C6: when the source file does not parse, the process exits with status
    1 and no file has changed; with a catalog that loads, the exception is
    the decode error of the source, raised before the backup is written. *)
Theorem malformed_source_changes_nothing w :
  files w !! optimized_file = Some Malformed →
  (main repr message w).1 = 1
  ∧ files (main repr message w).2 = files w
  ∧ (∀ C, files w !! original_file = Some (Document C) →
          (update_expert_templates repr w).1 = Raise JSONDecodeError).
Proof.
  intros Hsrc.
  assert (∃ e w', update_expert_templates repr w = (Raise e, w')
                  ∧ files w' = files w
                  ∧ (∀ C, files w !! original_file = Some (Document C) →
                          e = JSONDecodeError)) as (e & w' & Hrun & Hfiles & He).
  { unfold update_expert_templates.
    rewrite now_bind, print_bind, IO_bind_eq. unfold load_json_file at 1.
    cbn [files print now_strftime snd].
    destruct (files w !! original_file) as [[|C]|] eqn:HC.
    - eexists _, _. split; [reflexivity|]. split; [done|]. by intros C [=].
    - rewrite print_bind, IO_bind_eq. unfold load_json_file at 1.
      cbn [files print now_strftime snd]. rewrite Hsrc.
      eexists _, _. split; [reflexivity|]. done.
    - eexists _, _. split; [reflexivity|]. split; [done|]. by intros C [=]. }
  destruct (main_Raise _ _ _ Hrun) as [-> ->]. split; [done|]. split; [done|].
  intros C HC. rewrite Hrun. simpl. f_equal. by eapply He.
Qed.



(** C7, as the code has it: the merge is not idempotent.  When the script
    runs twice with the same source, an industry of the table that is in
    both documents has the optimized template at index 0 after the first
    run and at indices 0 and 1 after the second (ten elements at most are
    kept), so the two lists differ unless the first nine templates of the
    original list were that template already; the count recorded is the
    same in both runs. *)
Theorem second_run_inserts_again w C src industries experts key b1 w1 b2 w2 :
  files w !! original_file = Some (Document C) →
  files w !! optimized_file = Some (Document src) →
  industries_of C = Some industries →
  experts_of src = Some experts →
  key ∈ expert_keys →
  is_Some (industries !! key) →
  is_Some (experts !! key) →
  update_expert_templates repr w = (Ok b1, w1) →
  update_expert_templates repr w1 = (Ok b2, w2) →
  ∃ D1 D2 before optimized,
    catalog_file w1 = Some D1
    ∧ catalog_file w2 = Some D2
    ∧ templates_at key C = Ok (JArr before)
    ∧ templates_at key D1 = Ok (JArr (take 10 (optimized :: before)))
    ∧ templates_at key D2 = Ok (JArr (take 10 (optimized :: optimized :: before)))
    ∧ getitem optimized "id" = Ok (JStr (key +:+ "-professional-consultation"))
    ∧ (templates_at key D2 = templates_at key D1
       ↔ take 9 before = replicate 9 optimized)
    ∧ expert_count D1 = Ok (JInt (count_in_both industries experts expert_keys))
    ∧ expert_count D2 = expert_count D1.
Proof.
  intros HC Hsrc Hi He Hkey Hik Hek Hrun1 Hrun2.
  destruct (catalog_of_industries _ _ Hi) as [top ->].
  destruct (run_Ok_shape _ _ _ _ _ _ _ HC Hsrc He Hrun1)
    as (top1 & industries1 & HC1 & Hsrc1 & Hmerge1 & Hcount1).
  destruct (run_Ok_shape _ _ _ _ _ _ _ HC1 Hsrc1 He Hrun2)
    as (top2 & industries2 & HC2 & _ & Hmerge2 & Hcount2).
  pose proof (merge_industries_is_Some _ _ _ _ Hmerge1) as Hsome.
  destruct (merged_templates _ _ _ _ _ Hmerge1 Hkey Hik Hek)
    as (ind & ind1 & t0 & ts & optimized & Hind & Ht & Hopt & Hind1 & Ht1).
  destruct (merged_templates _ _ _ _ key Hmerge2 Hkey) as
    (ind1' & ind2 & t0' & ts' & optimized' & Hind1' & Ht1' & Hopt' & Hind2 & Ht2);
    [by apply Hsome|done|].
  rewrite Hind1 in Hind1'. injection Hind1' as <-.
  rewrite Ht1 in Ht1'. injection Ht1' as <- <-.
  assert (optimized' = optimized) as ->.
  { change (create_optimized_template repr key src optimized)
      with (create_optimized_template repr key src t0) in Hopt'. congruence. }
  exists (catalog top1 industries1), (catalog top2 industries2), (t0 :: ts), optimized.
  unfold catalog_file. rewrite HC1, HC2, !templates_at_catalog.
  rewrite !getitem_obj, Hind, Hind1, Hind2, !bind_Ok, !getitem_obj, Ht, Ht1, Ht2.
  assert (take 10 (optimized :: optimized :: t0 :: take 8 ts)
          = optimized :: optimized :: take 8 (t0 :: ts)) as ->.
  { simpl. by rewrite take_take. }
  change (take 10 (optimized :: optimized :: t0 :: ts))
    with (optimized :: optimized :: take 8 (t0 :: ts)).
  change (take 10 (optimized :: t0 :: ts)) with (optimized :: take 9 (t0 :: ts)).
  split; [done|]. split; [done|]. split; [done|]. split; [done|]. split; [done|].
  split; [by eapply create_optimized_template_id|]. split.
  - rewrite <- take_shifted. split.
    + generalize (optimized :: take 8 (t0 :: ts)), (take 9 (t0 :: ts)).
      by intros a a' [= ->].
    + intros H. by rewrite H.
  - rewrite Hcount2, Hcount1. split; [done|].
    by rewrite (count_in_both_ext industries industries1).
Qed.
End Claims.

(** * The claims on the sample documents *)

Lemma pair_of_fst {A B} (p : A * B) (a : A) : p.1 = a → p = (a, p.2).
Proof. intros <-. by destruct p. Qed.

Lemma experts_of_sample : experts_of Sample.source = Some Sample.experts.
Proof. reflexivity. Qed.

Lemma sample_cases (P : string → Prop) :
  P "teacher" → P "lawyer" → P "accountant" → P "realtor" → P "insurance" →
  ∀ key, key ∈ expert_keys → P key.
Proof.
  intros ????? key Hkey. rewrite expert_keys_five in Hkey.
  repeat (apply elem_of_cons in Hkey as [->|Hkey]); try done.
  by apply elem_of_nil in Hkey.
Qed.

Lemma sample_mergeable : mergeable Sample.industries Sample.experts expert_keys.
Proof.
  intros key industry expert_info Hkey. revert industry expert_info.
  pattern key. revert key Hkey.
  apply sample_cases; intros industry expert_info Hi He.
  - change (Some (Sample.industry [Sample.template "a"; Sample.template "b"])
            = Some industry) in Hi.
    change (Some (Sample.expert "T") = Some expert_info) in He.
    injection Hi as <-. injection He as <-.
    split; [by vm_compute|]. by eexists _, _.
  - change (Some (Sample.industry Sample.ten) = Some industry) in Hi.
    change (Some (Sample.expert "L") = Some expert_info) in He.
    injection Hi as <-. injection He as <-.
    split; [by vm_compute|]. by eexists _, _.
  - by change (None = Some expert_info) in He.
  - by change (None = Some industry) in Hi.
  - by change (None = Some industry) in Hi.
Qed.


Example strftime_backup_stamp :
  strftime "%Y%m%d_%H%M%S"
    {| year := 2025; month := 8; day := 3; hour := 14; minute := 5; second := 9 |}
  = "20250803_140509".
Proof. by vm_compute. Qed.

Example basename_backup :
  basename (backup_path "20250803_140509") = "templates-2025-backup-20250803_140509.json".
Proof. by vm_compute. Qed.

Example code_points_example : code_points "a专业b" = ["a"; "专"; "业"; "b"].
Proof. by vm_compute. Qed.

Example sample_run_console :
  stdout (main Sample.repr Sample.message Sample.w_empty).2 =
    ["📖 加载原始模板文件..."; "📖 加载优化提示词文件..."; "💾 创建备份文件...";
     "🔄 更新 T 专家..."; "✅ T 更新完成"; "🔄 更新 L 专家..."; "❌ 更新失败: error"].
Proof. by vm_compute. Qed.



Lemma other_industries_unchanged_witness :
  update_expert Sample.repr Sample.source "realtor" "realtor" Sample.document 0 Sample.w
    = (Ok (Sample.document, 0), Sample.w)
  ∧ ∀ C' n w',
      update_experts Sample.repr Sample.source expert_mapping Sample.document 0 Sample.w
        = (Ok (C', n), w') →
      ∃ industries',
        industries_of C' = Some industries'
        ∧ industries' !! "accountant" = Sample.industries !! "accountant"
        ∧ industries' !! "doctor" = Sample.industries !! "doctor"
        ∧ industries' !! "realtor" = None.
Proof.
  destruct (other_industries_unchanged Sample.repr Sample.source Sample.document
              Sample.industries Sample.experts Sample.w)
    as (_ & Hskip & Hframe).
  - apply industries_of_catalog.
  - reflexivity.
  - split.
    + apply Hskip. intros [Hi _]. revert Hi. apply is_Some_None.
    + intros C' n w' Hrun.
      destruct (Hframe C' n w' Hrun) as (industries' & Hi & Hsame & _).
      exists industries'. split; [exact Hi|]. split; [|split].
      * apply Hsame. intros (_ & _ & He). revert He. apply is_Some_None.
      * apply Hsame. intros (Hkey & _). revert Hkey. by_lookup.
      * rewrite Hsame; [reflexivity|].
        intros (_ & Hi' & _). revert Hi'. apply is_Some_None.
Defined.



Lemma malformed_source_changes_nothing_witness :
  (main Sample.repr Sample.message Sample.w_malformed).1 = 1
  ∧ files (main Sample.repr Sample.message Sample.w_malformed).2
    = files Sample.w_malformed
  ∧ (update_expert_templates Sample.repr Sample.w_malformed).1 = Raise JSONDecodeError.
Proof.
  destruct (malformed_source_changes_nothing Sample.repr Sample.message
              Sample.w_malformed) as (Hexit & Hfiles & Hexn).
  - reflexivity.
  - split; [exact Hexit|]. split; [exact Hfiles|].
    apply (Hexn Sample.document). reflexivity.
Defined.



Lemma second_run_inserts_again_witness :
  ∃ D1 D2 optimized,
    catalog_file Sample.once = Some D1
    ∧ catalog_file Sample.twice = Some D2
    ∧ templates_at "teacher" D1
      = Ok (JArr [optimized; Sample.template "a"; Sample.template "b"])
    ∧ templates_at "teacher" D2
      = Ok (JArr [optimized; optimized; Sample.template "a"; Sample.template "b"])
    ∧ expert_count D1 = Ok (JInt 2)
    ∧ expert_count D2 = Ok (JInt 2).
Proof.
  destruct (second_run_inserts_again Sample.repr Sample.w Sample.document Sample.source
              Sample.industries Sample.experts "teacher"
              true Sample.once true Sample.twice)
    as (D1 & D2 & before & optimized & H1 & H2 & Hb & Ht1 & Ht2 & _ & _ & Hc1 & Hc2).
  - reflexivity.
  - reflexivity.
  - apply industries_of_catalog.
  - reflexivity.
  - by_lookup.
  - by_lookup.
  - by_lookup.
  - apply (pair_of_fst (update_expert_templates Sample.repr Sample.w) (Ok true)).
    vm_compute. reflexivity.
  - apply (pair_of_fst (update_expert_templates Sample.repr Sample.once) (Ok true)).
    vm_compute. reflexivity.
  - change (Ok (JArr [Sample.template "a"; Sample.template "b"]) = Ok (JArr before))
      in Hb.
    injection Hb as <-.
    exists D1, D2, optimized. split; [exact H1|]. split; [exact H2|].
    split; [exact Ht1|]. split; [exact Ht2|].
    assert (count_in_both Sample.industries Sample.experts expert_keys = 2) as Hn
      by (vm_compute; reflexivity).
    rewrite Hn in Hc1. split; [exact Hc1|]. rewrite Hc2. exact Hc1.
Defined.

(** C7 as stated fails: on the sample documents both runs complete and both
    record the same count, so the count field does not differ between the two
    runs. *)
Lemma second_run_same_count :
  (update_expert_templates Sample.repr Sample.w).1 = Ok true
  ∧ (update_expert_templates Sample.repr Sample.once).1 = Ok true
  ∧ (D ← catalog_file Sample.once; Some (expert_count D)) = Some (Ok (JInt 2))
  ∧ (D ← catalog_file Sample.twice; Some (expert_count D)) = Some (Ok (JInt 2))
  ∧ ¬ ((D ← catalog_file Sample.once; Some (expert_count D))
       ≠ (D ← catalog_file Sample.twice; Some (expert_count D))).
Proof.
  assert ((D ← catalog_file Sample.once; Some (expert_count D)) = Some (Ok (JInt 2)))
    as H1 by (vm_compute; reflexivity).
  assert ((D ← catalog_file Sample.twice; Some (expert_count D)) = Some (Ok (JInt 2)))
    as H2 by (vm_compute; reflexivity).
  split; [vm_compute; reflexivity|]. split; [vm_compute; reflexivity|].
  split; [exact H1|]. split; [exact H2|].
  intros Hne. apply Hne. rewrite H1, H2. reflexivity.
Qed.

(** * Further properties of the script *)

(** ** Files written by a run *)

Lemma keeps_load path file_path : keeps path (load_json_file file_path).
Proof.
  intros w. unfold load_json_file.
  by destruct (files w !! file_path) as [[|data]|].
Qed.

Lemma main_files repr message w :
  files (main repr message w).2 = files (update_expert_templates repr w).2.
Proof.
  unfold main. by destruct (update_expert_templates repr w) as [[b|e] w'].
Qed.

Lemma main_status repr message w :
  (main repr message w).1
  = match (update_expert_templates repr w).1 with Ok _ => 0 | Raise _ => 1 end.
Proof.
  unfold main. by destruct (update_expert_templates repr w) as [[b|e] w'].
Qed.

Section Files.
Variable repr : json → string.
Variable message : exception → string.

(** A run whose inputs do not both load raises at the first load that
    fails and writes nothing. *)
Lemma run_not_loaded w :
  (∀ C src, ¬ (files w !! original_file = Some (Document C)
               ∧ files w !! optimized_file = Some (Document src))) →
  ∃ e w',
    update_expert_templates repr w = (Raise e, w')
    ∧ files w' = files w
    ∧ e = match files w !! original_file with
          | None => FileNotFoundError original_file
          | Some Malformed => JSONDecodeError
          | Some (Document _) =>
              match files w !! optimized_file with
              | None => FileNotFoundError optimized_file
              | _ => JSONDecodeError
              end
          end.
Proof.
  intros Hnot. unfold update_expert_templates.
  rewrite now_bind, print_bind, IO_bind_eq. unfold load_json_file at 1.
  cbn [files print now_strftime snd].
  destruct (files w !! original_file) as [[|C]|] eqn:HC.
  - by eexists _, _.
  - rewrite print_bind, IO_bind_eq. unfold load_json_file at 1.
    cbn [files print now_strftime snd].
    destruct (files w !! optimized_file) as [[|src]|] eqn:Hsrc.
    + by eexists _, _.
    + destruct (Hnot C src). done.
    + by eexists _, _.
  - by eexists _, _.
Qed.

(** X1: when the catalog file or the source file is missing or does not
    parse, the process exits with status 1 and no file is written (not even
    the backup); the exception is that of the first load that fails, the
    catalog being loaded first. *)
Theorem load_failure_writes_nothing w :
  (∀ C src, ¬ (files w !! original_file = Some (Document C)
               ∧ files w !! optimized_file = Some (Document src))) →
  (main repr message w).1 = 1
  ∧ files (main repr message w).2 = files w
  ∧ (update_expert_templates repr w).1
    = Raise match files w !! original_file with
            | None => FileNotFoundError original_file
            | Some Malformed => JSONDecodeError
            | Some (Document _) =>
                match files w !! optimized_file with
                | None => FileNotFoundError optimized_file
                | _ => JSONDecodeError
                end
            end.
Proof.
  intros Hnot. destruct (run_not_loaded w Hnot) as (e & w' & Hrun & Hfiles & ->).
  rewrite main_status, main_files, Hrun. done.
Qed.

(** Whatever the outcome, a run leaves alone every path but the catalog's
    and the backup's. *)
Lemma run_keeps w path :
  path ≠ original_file →
  path ≠ backup_file_of w →
  files (update_expert_templates repr w).2 !! path = files w !! path.
Proof.
  intros Horiginal Hbackup. unfold update_expert_templates.
  rewrite now_bind.
  match goal with
  | |- files (?rest ?w0).2 !! _ = _ =>
      change (files w) with (files w0); generalize w0; change (keeps path rest)
  end.
  repeat first
    [ apply keeps_print | apply keeps_ret | apply keeps_lift | apply keeps_load
    | apply keeps_now | apply keeps_save; done
    | apply quiet_keeps, quiet_update_experts
    | apply keeps_bind; [|intros ?]
    | match goal with p : _ * _ |- _ => destruct p end ].
Qed.

(** X2: a run writes at most two paths, the backup's and the catalog's.
    Every other file, the optimization source among them, holds after the
    process what it held before, whether the run completes or raises; and
    the backup path is never the path of either input. *)
Theorem only_backup_and_catalog_written w :
  (∀ path, path ≠ original_file → path ≠ backup_file_of w →
           files (main repr message w).2 !! path = files w !! path)
  ∧ files (main repr message w).2 !! optimized_file = files w !! optimized_file
  ∧ backup_file_of w ≠ original_file
  ∧ backup_file_of w ≠ optimized_file.
Proof.
  split; [|split; [|split]].
  - intros path H1 H2. rewrite main_files. by apply run_keeps.
  - rewrite main_files. apply run_keeps.
    + intros H. by apply original_optimized.
    + intros H. symmetry in H. revert H. apply backup_path_optimized.
  - apply backup_path_original.
  - apply backup_path_optimized.
Qed.

(** A run that completes loaded both inputs, and then [run_loaded] applies. *)
Lemma run_Ok_loaded w b w' :
  update_expert_templates repr w = (Ok b, w') →
  ∃ C src,
    files w !! original_file = Some (Document C)
    ∧ files w !! optimized_file = Some (Document src).
Proof.
  intros Hrun.
  destruct (files w !! original_file) as [[|C]|] eqn:HC;
    [| destruct (files w !! optimized_file) as [[|src]|] eqn:Hsrc; [|by eauto|] |];
    (destruct (run_not_loaded w) as (e & w1 & Hraise & _);
     [intros C' src' [H1 H2]; congruence | congruence]).
Qed.

(** X3: the exit status is 0 or 1, and it is 0 only if both inputs loaded,
    the backup file holds the catalog as it was loaded, and the catalog file
    holds a document stamped with version [2025.2-optimized]; the run has
    then read the clock three times. *)
Theorem exit_status_zero w :
  ((main repr message w).1 = 0 ∨ (main repr message w).1 = 1)
  ∧ ((main repr message w).1 = 0 →
     ∃ C src D,
       files w !! original_file = Some (Document C)
       ∧ files w !! optimized_file = Some (Document src)
       ∧ files (main repr message w).2 !! backup_file_of w = Some (Document C)
       ∧ catalog_file (main repr message w).2 = Some D
       ∧ getitem D "version" = Ok (JStr "2025.2-optimized")
       ∧ ticks (main repr message w).2 = S (S (S (ticks w)))).
Proof.
  split.
  - rewrite main_status. destruct (update_expert_templates repr w).1; auto.
  - intros Hzero. rewrite main_status in Hzero.
    destruct (update_expert_templates repr w) as [[b|e] w'] eqn:Hrun; [|done].
    destruct (run_Ok_loaded w b w' Hrun) as (C & src & HC & Hsrc).
    destruct (run_loaded repr w C src HC Hsrc)
      as (wb & r & w1 & _ & _ & _ & _ & Hr).
    destruct r as [[[| | | | | |m] n]|e]; try congruence.
    destruct Hr as (w2 & Hrun2 & Hfiles & _ & Hticks).
    rewrite Hrun in Hrun2. injection Hrun2 as -> ->.
    assert (main repr message w = (0, w2)) as -> by (unfold main; by rewrite Hrun).
    eexists C, src, _. split; [done|]. split; [done|]. cbn [snd].
    unfold catalog_file, backup_file_of. rewrite Hfiles.
    split; [|split; [by rewrite lookup_insert_eq|split; [apply stamped_version|done]]].
    rewrite lookup_insert_ne by (symmetry; apply backup_path_original).
    by rewrite lookup_insert_eq.
Qed.
End Files.

(** ** The template builder *)

Lemma has_fields_cons field fields d :
  has_fields (field :: fields) d = true ↔
  (∃ v, getitem d field = Ok v) ∧ has_fields fields d = true.
Proof.
  destruct d as [| | | | | |m]; simpl; try (split; [done|by intros [[? ?] _]]).
  rewrite andb_true_iff, bool_decide_eq_true. split.
  - intros [[v Hv] ?]. split; [|done]. exists v. by rewrite Hv.
  - intros [[v Hv] ?]. split; [|done]. destruct (m !! field); [eauto|done].
Qed.

Lemma has_fields_nil_getitem d field v : getitem d field = Ok v → has_fields [] d = true.
Proof. by intros (m & -> & _)%getitem_Ok. Qed.

Section Builder.
Variable repr : json → string.

(** Every read of the builder, in the order of the source. *)
Lemma create_optimized_template_inv key src original optimized :
  create_optimized_template repr key src original = Ok optimized →
  ∃ expert_info name description prompt system context task format safety
    competencies users,
    getpath src ["experts"; key] = Ok expert_info
    ∧ getitem expert_info "name" = Ok name
    ∧ getitem expert_info "description" = Ok description
    ∧ getitem expert_info "optimized_prompt" = Ok prompt
    ∧ getitem prompt "system" = Ok system
    ∧ getitem prompt "context" = Ok context
    ∧ getitem prompt "task_framework" = Ok task
    ∧ getitem prompt "output_format" = Ok format
    ∧ getitem prompt "safety_guidelines" = Ok safety
    ∧ getitem expert_info "core_competencies" = Ok competencies
    ∧ getitem expert_info "target_users" = Ok users
    ∧ optimized = JObj (list_to_map [
        ("id", JStr (key +:+ "-professional-consultation"));
        ("title", JStr ("专业" +:+ str repr name +:+ "咨询助手"));
        ("category", JStr "专业咨询");
        ("description", JStr ("基于行动型AI教练模式的" +:+ str repr description));
        ("difficulty", JStr "professional");
        ("estimatedTime", JStr "15-30分钟");
        ("prompt", JObj (list_to_map [
           ("system", system);
           ("context", context);
           ("task", task);
           ("format", format);
           ("examples",
            JStr ("基于" +:+ str repr name +:+ "专业场景提供具体可执行的解决方案"));
           ("safety", safety)]));
        ("tags", competencies);
        ("useCases", users);
        ("targetUsers", users);
        ("coreCompetencies", competencies);
        ("bestPractices", strings [
           "始终提供具体可执行的行动方案";
           "结合中国本土化环境和政策";
           "重视风险识别和防控";
           "支持客户决策和实施";
           "提供持续的专业指导"]);
        ("optimizationFeatures", strings [
           "行动型AI教练模式";
           "结构化决策框架";
           "具体实施清单";
           "中国本土化适配";
           "专业伦理保障"])]).
Proof.
  unfold create_optimized_template. intros H.
  repeat match type of H with
         | (_ ≫= _) = Ok _ =>
             let x := fresh "x" in let Hx := fresh "Hx" in
             apply bind_inv_Ok in H as (x & Hx & H)
         end.
  cbn [getpath] in *.
  repeat match goal with
         | H : (_ ≫= _) = Ok _ |- _ =>
             let x := fresh "p" in let Hx := fresh "Hp" in
             apply bind_inv_Ok in H as (x & Hx & H)
         end.
  repeat match goal with
         | H : Ok _ = Ok _ |- _ => injection H as H; try subst
         end.
  repeat match goal with
         | H1 : ?a = Ok ?x, H2 : ?a = Ok ?y |- _ =>
             rewrite H1 in H2; injection H2 as H2; try subst
         end.
  eexists _, _, _, _, _, _, _, _, _, _, _.
  rewrite Hx, bind_Ok.
  match goal with H : getitem ?x _ = Ok ?e |- context [getitem ?x key] =>
    rewrite H, bind_Ok end.
  repeat (split; [eassumption || reflexivity|]). reflexivity.
Qed.


Lemma create_optimized_template_buildable key src original expert_info :
  getpath src ["experts"; key] = Ok expert_info →
  buildable expert_info = true →
  ∃ optimized, create_optimized_template repr key src original = Ok optimized.
Proof.
  intros He Hb. unfold buildable in Hb.
    apply andb_prop in Hb as [Hfields Hp].
    destruct (getitem expert_info "optimized_prompt") as [p|] eqn:Hprompt; [|done].
    destruct (has_fields_getitem _ _ "name" Hfields) as [name Hname]; [set_solver|].
    destruct (has_fields_getitem _ _ "description" Hfields) as [description Hd];
      [set_solver|].
    destruct (has_fields_getitem _ _ "core_competencies" Hfields) as [c Hc];
      [set_solver|].
    destruct (has_fields_getitem _ _ "target_users" Hfields) as [u Hu]; [set_solver|].
    destruct (has_fields_getitem _ _ "system" Hp) as [system Hsystem]; [set_solver|].
    destruct (has_fields_getitem _ _ "context" Hp) as [context Hcontext]; [set_solver|].
    destruct (has_fields_getitem _ _ "task_framework" Hp) as [task Htask];
      [set_solver|].
    destruct (has_fields_getitem _ _ "output_format" Hp) as [format Hformat];
      [set_solver|].
    destruct (has_fields_getitem _ _ "safety_guidelines" Hp) as [safety Hsafety];
      [set_solver|].
    cbn [getpath] in He.
    apply bind_inv_Ok in He as (experts & Hexperts & He).
    apply bind_inv_Ok in He as (e' & He' & [= ->]).
    unfold create_optimized_template.
    rewrite Hexperts, bind_Ok, He', bind_Ok. cbn [getpath].
    rewrite Hname, Hd, Hprompt, Hc, Hu, !bind_Ok.
    rewrite Hsystem, Hcontext, Htask, Hformat, Hsafety, !bind_Ok.
    eauto.
Qed.

(** X5: the builder succeeds exactly when the source has an expert record
    under the key with [name], [description], [core_competencies],
    [target_users] and an [optimized_prompt] holding its five entries; the
    record's [emoji] is not read. *)
Theorem builder_succeeds_iff_buildable key src original :
  (∃ optimized, create_optimized_template repr key src original = Ok optimized)
  ↔ ∃ expert_info,
      getpath src ["experts"; key] = Ok expert_info
      ∧ buildable expert_info = true.
Proof.
  split.
  - intros [optimized H]. apply create_optimized_template_inv in H
      as (expert_info & name & description & prompt & system & context & task
          & format & safety & competencies & users & He & Hname & Hdescription
          & Hprompt & Hsystem & Hcontext & Htask & Hformat & Hsafety & Hcomp
          & Husers & _).
    exists expert_info. split; [done|]. unfold buildable. rewrite Hprompt.
    apply andb_true_iff. split.
    + repeat (apply has_fields_cons; split; [eauto|]).
      by eapply has_fields_nil_getitem.
    + repeat (apply has_fields_cons; split; [eauto|]).
      by eapply has_fields_nil_getitem.
  - intros (expert_info & He & Hb). by eapply create_optimized_template_buildable.
Qed.

(** X6: the exception of the builder.  A key that the source's experts do
    not have raises the key error of that key; a record that is not an
    object raises a type error; otherwise the reads go in source order, and
    the first entry found missing raises its key error: [name],
    [description], [optimized_prompt], then the prompt's [system],
    [context], [task_framework], [output_format], [safety_guidelines], then
    [core_competencies], [target_users]. *)
Theorem builder_exceptions key src experts original :
  experts_of src = Some experts →
  (experts !! key = None →
   create_optimized_template repr key src original = Raise (KeyError key))
  ∧ (∀ x, experts !! key = Some x → (∀ record, x ≠ JObj record) →
          create_optimized_template repr key src original = Raise TypeError)
  ∧ (∀ record field,
       experts !! key = Some (JObj record) →
       first_missing ["name"; "description"; "optimized_prompt"] record = Some field →
       create_optimized_template repr key src original = Raise (KeyError field))
  ∧ (∀ record prompt field,
       experts !! key = Some (JObj record) →
       first_missing ["name"; "description"] record = None →
       record !! "optimized_prompt" = Some (JObj prompt) →
       first_missing ["system"; "context"; "task_framework"; "output_format";
                      "safety_guidelines"] prompt = Some field →
       create_optimized_template repr key src original = Raise (KeyError field))
  ∧ (∀ record prompt field,
       experts !! key = Some (JObj record) →
       first_missing ["name"; "description"] record = None →
       record !! "optimized_prompt" = Some (JObj prompt) →
       first_missing ["system"; "context"; "task_framework"; "output_format";
                      "safety_guidelines"] prompt = None →
       first_missing ["core_competencies"; "target_users"] record = Some field →
       create_optimized_template repr key src original = Raise (KeyError field)).
Proof.
  intros Hsrc. unfold create_optimized_template, first_missing.
  rewrite (getitem_experts _ _ Hsrc), bind_Ok, getitem_obj.
  repeat split.
  - by intros ->.
  - intros x -> Hx. rewrite bind_Ok.
    destruct x as [| | | | | |record]; try done. by destruct (Hx record).
  - intros record field -> Hfind. rewrite bind_Ok. cbn [getpath List.find] in *.
    rewrite !getitem_obj.
    repeat match type of Hfind with
           | context [bool_decide (record !! ?f = None)] =>
               destruct (record !! f) as [?|] eqn:?;
               [rewrite bool_decide_eq_false_2 in Hfind by done
               |rewrite bool_decide_eq_true_2 in Hfind by done;
                by injection Hfind as <-];
               rewrite ?bind_Ok
           end.
    done.
  - intros record prompt field -> Hrecord Hprompt Hfind. rewrite bind_Ok.
    cbn [getpath List.find] in *. rewrite !getitem_obj, Hprompt.
    repeat match type of Hrecord with
           | context [bool_decide (record !! ?f = None)] =>
               destruct (record !! f) as [?|] eqn:?;
               [rewrite bool_decide_eq_false_2 in Hrecord by done
               |by rewrite bool_decide_eq_true_2 in Hrecord by done];
               rewrite ?bind_Ok
           end.
    rewrite !getitem_obj.
    repeat match type of Hfind with
           | context [bool_decide (prompt !! ?f = None)] =>
               destruct (prompt !! f) as [?|] eqn:?;
               [rewrite bool_decide_eq_false_2 in Hfind by done
               |rewrite bool_decide_eq_true_2 in Hfind by done;
                by injection Hfind as <-];
               rewrite ?bind_Ok
           end.
    done.
  - intros record prompt field -> Hrecord Hprompt Hnone Hfind. rewrite bind_Ok.
    cbn [getpath List.find] in *. rewrite !getitem_obj, Hprompt.
    repeat match type of Hrecord with
           | context [bool_decide (record !! ?f = None)] =>
               destruct (record !! f) as [?|] eqn:?;
               [rewrite bool_decide_eq_false_2 in Hrecord by done
               |by rewrite bool_decide_eq_true_2 in Hrecord by done];
               rewrite ?bind_Ok
           end.
    rewrite !getitem_obj.
    repeat match type of Hnone with
           | context [bool_decide (prompt !! ?f = None)] =>
               destruct (prompt !! f) as [?|] eqn:?;
               [rewrite bool_decide_eq_false_2 in Hnone by done
               |by rewrite bool_decide_eq_true_2 in Hnone by done];
               rewrite ?bind_Ok
           end.
    repeat match type of Hfind with
           | context [bool_decide (record !! ?f = None)] =>
               destruct (record !! f) as [?|] eqn:?;
               [rewrite bool_decide_eq_false_2 in Hfind by done
               |rewrite bool_decide_eq_true_2 in Hfind by done;
                by injection Hfind as <-];
               rewrite ?bind_Ok
           end.
    done.
Qed.
End Builder.

(** ** The merged industry record *)

Lemma overwritten_lookup_other name description emoji users competencies ind field :
  field ∉ ["name"; "description"; "emoji"; "targetUsers"; "coreCompetencies"] →
  overwritten name description emoji users competencies ind !! field = ind !! field.
Proof.
  intros H. unfold overwritten.
  by rewrite !lookup_insert_ne by (intros ?; subst; apply H; by_lookup).
Qed.

Section Record.
Variable repr : json → string.

(** X7: an industry that the loop merges gets its [name], [description],
    [emoji], [targetUsers] and [coreCompetencies] from the expert's
    [name], [description], [emoji], [target_users] and
    [core_competencies]; every other entry of the record except
    [templates] is kept as it was, and no entry is removed. *)
Theorem merged_industry_entries src C industries experts key w C' n w' :
  industries_of C = Some industries →
  experts_of src = Some experts →
  key ∈ expert_keys →
  is_Some (industries !! key) →
  is_Some (experts !! key) →
  update_experts repr src expert_mapping C 0 w = (Ok (C', n), w') →
  ∃ industries' before after expert_info,
    industries_of C' = Some industries'
    ∧ industries !! key = Some (JObj before)
    ∧ industries' !! key = Some (JObj after)
    ∧ experts !! key = Some expert_info
    ∧ getitem (JObj after) "name" = getitem expert_info "name"
    ∧ getitem (JObj after) "description" = getitem expert_info "description"
    ∧ getitem (JObj after) "emoji" = getitem expert_info "emoji"
    ∧ getitem (JObj after) "targetUsers" = getitem expert_info "target_users"
    ∧ getitem (JObj after) "coreCompetencies"
      = getitem expert_info "core_competencies"
    ∧ (∀ field,
         field ∉ ["name"; "description"; "emoji"; "targetUsers";
                  "coreCompetencies"; "templates"] →
         after !! field = before !! field)
    ∧ (∀ field, is_Some (before !! field) → is_Some (after !! field)).
Proof.
  intros [top ->]%catalog_of_industries Hsrc Hkey [industry Hi] [expert_info He] Hrun.
  destruct (update_experts_Ok_inv _ _ _ _ _ _ _ _ _ Hsrc Hrun)
    as (industries' & -> & Hmerge & _ & _).
  destruct (merge_industries_lookup repr src experts expert_keys NoDup_expert_keys
              _ _ Hmerge key industry expert_info Hkey Hi He)
    as (industry' & Hone & Hi').
  apply merge_industry_inv in Hone
    as (ind & name & description & emoji & users & competencies
        & t0 & ts & optimized & -> & Hname & Hdescription & Hemoji & Husers
        & Hcomp & Ht & Hopt & ->).
  eexists industries', ind, _, expert_info.
  split; [apply industries_of_catalog|]. split; [done|]. split; [done|].
  split; [done|]. rewrite Hname, Hdescription, Hemoji, Husers, Hcomp.
  rewrite !getitem_obj.
  do 5 (split; [unfold overwritten;
                by rewrite ?(lookup_insert_ne _ _ _ _), lookup_insert_eq by done|]).
  split.
  - intros field Hfield.
    rewrite lookup_insert_ne by (intros <-; apply Hfield; by_lookup).
    apply overwritten_lookup_other.
    intros Hin. apply Hfield. revert Hin. rewrite !elem_of_cons. tauto.
  - intros field Hsome. unfold overwritten.
    repeat (rewrite lookup_insert; case_decide; [by eauto|]). done.
Qed.

(** X8: the loop neither adds nor removes an industry: the keys of
    [industries] after the merge are the keys before it. *)
Theorem industries_keys_preserved src C industries experts w C' n w' :
  industries_of C = Some industries →
  experts_of src = Some experts →
  update_experts repr src expert_mapping C 0 w = (Ok (C', n), w') →
  ∃ industries',
    industries_of C' = Some industries'
    ∧ dom industries' = dom industries.
Proof.
  intros [top ->]%catalog_of_industries Hsrc Hrun.
  destruct (update_experts_Ok_inv _ _ _ _ _ _ _ _ _ Hsrc Hrun)
    as (industries' & -> & Hmerge & _ & _).
  exists industries'. split; [apply industries_of_catalog|].
  apply set_eq. intros key. rewrite !elem_of_dom.
  by apply (merge_industries_is_Some repr src experts).
Qed.
End Record.

(** ** The order of the loop *)

Lemma count_in_both_bounds industries experts keys :
  0 ≤ count_in_both industries experts keys ≤ Z.of_nat (length keys)
  ∧ (count_in_both industries experts keys = Z.of_nat (length keys)
     ↔ ∀ key, key ∈ keys → in_both industries experts key = true).
Proof.
  induction keys as [|k keys [IH1 IH2]].
  - split; [done|]. split; [intros _ key Hkey; by apply elem_of_nil in Hkey|done].
  - rewrite count_in_both_cons. cbn [length]. split.
    + destruct (in_both industries experts k); lia.
    + destruct (in_both industries experts k) eqn:Hk; split.
      * intros H key [->|Hkey]%elem_of_cons; [done|]. apply IH2; [lia|done].
      * intros H. replace (count_in_both industries experts keys)
          with (Z.of_nat (length keys)); [lia|].
        symmetry. apply IH2. intros key Hkey. apply H. by right.
      * lia.
      * intros H. specialize (H k (list_elem_of_here _ _)). congruence.
Qed.

Lemma progress_lines_insert repr industries experts key industry' keys :
  is_Some (industries !! key) →
  progress_lines repr (<[key := industry']> industries) experts keys
  = progress_lines repr industries experts keys.
Proof.
  intros [industry Hkey]. unfold progress_lines.
  induction keys as [|k keys IH]; [done|]. cbn [flat_map]. rewrite IH. f_equal.
  destruct (decide (key = k)) as [->|Hne].
  - by rewrite lookup_insert_eq, Hkey.
  - by rewrite lookup_insert_ne.
Qed.

Section Order.
Variable repr : json → string.


Lemma update_experts_stdout src experts top keys :
  experts_of src = Some experts →
  ∀ industries n w C' n' w',
    update_experts repr src (identity_mapping keys) (catalog top industries) n w
      = (Ok (C', n'), w') →
    stdout w' = (stdout w ++ progress_lines repr industries experts keys)%list.
Proof.
  intros Hsrc. induction keys as [|key keys IH]; intros industries n w C' n' w' Hrun.
  - injection Hrun as _ _ <-. by rewrite app_nil_r.
  - change (identity_mapping (key :: keys)) with ((key, key) :: identity_mapping keys)
      in Hrun.
    cbn [update_experts] in Hrun. rewrite IO_bind_eq in Hrun.
    unfold progress_lines. cbn [flat_map]. fold (progress_lines repr industries experts keys).
    destruct (in_both industries experts key) eqn:Hboth.
    + pose proof Hboth as (industry & expert_info & Hi & He)%in_both_true.
      rewrite (update_expert_in_both _ _ _ _ _ _ _ _ _ _ Hsrc Hi He), Hi, He in *.
      rewrite lift_bind in Hrun.
      destruct (getitem expert_info "name") as [name|e] eqn:Hname; [|done].
      rewrite print_bind, lift_bind in Hrun.
      destruct (merge_industry repr src key expert_info industry)
        as [industry'|e] eqn:Hmerge; [|done].
      rewrite print_bind in Hrun. unfold mret at 1, IO_ret in Hrun.
      apply IH in Hrun. rewrite Hrun. cbn [print snd stdout].
      rewrite progress_lines_insert by eauto.
      by rewrite <- !app_assoc.
    + rewrite (update_expert_skip _ _ _ _ _ _ _ _ Hsrc Hboth) in Hrun.
      apply IH in Hrun. rewrite Hrun.
      destruct (industries !! key) as [industry|] eqn:Hi; [|done].
      destruct (experts !! key) as [expert_info|] eqn:He; [|done].
      assert (in_both industries experts key = true) by (apply in_both_true; eauto).
      congruence.
Qed.

(** X10: a merge that completes prints, for each key of the table that is
    in both documents and in the order of the table, the line announcing
    the expert and the line reporting it done, both with the expert's name
    from the source; it prints nothing for the other keys, so the console
    grows by twice the count. *)
Theorem merge_console_lines src C industries experts w C' n w' :
  industries_of C = Some industries →
  experts_of src = Some experts →
  update_experts repr src expert_mapping C 0 w = (Ok (C', n), w') →
  stdout w' = (stdout w ++ progress_lines repr industries experts expert_keys)%list
  ∧ Z.of_nat (length (progress_lines repr industries experts expert_keys)) = 2 * n.
Proof.
  intros [top ->]%catalog_of_industries Hsrc Hrun.
  split; [by eapply update_experts_stdout|].
  destruct (update_experts_Ok_inv _ _ _ _ _ _ _ _ _ Hsrc Hrun)
    as (industries' & _ & Hmerge & -> & _).
  assert (∀ key industry expert_info,
            key ∈ expert_keys → industries !! key = Some industry →
            experts !! key = Some expert_info →
            ∃ name, getitem expert_info "name" = Ok name) as Hnames.
  { intros key industry expert_info Hkey Hi He.
    destruct (merge_industries_lookup repr src experts expert_keys NoDup_expert_keys
                _ _ Hmerge key industry expert_info Hkey Hi He)
      as (industry' & Hone & _).
    apply merge_industry_inv in Hone as (? & name & ? & ? & ? & ? & ? & ? & ?
                                         & _ & Hname & _). eauto. }
  clear Hmerge Hrun. revert Hnames. generalize expert_keys. intros keys Hnames.
  induction keys as [|k keys IH]; [done|].
  rewrite count_in_both_cons. unfold progress_lines in *. cbn [flat_map].
  rewrite length_app, Nat2Z.inj_add, IH by (intros; eapply Hnames; [by right|done..]).
  unfold in_both.
  destruct (industries !! k) as [industry|] eqn:Hi;
    [|cbn [length bool_decide]; rewrite bool_decide_eq_false_2 by (by intros [? ?]);
      simpl; lia].
  destruct (experts !! k) as [expert_info|] eqn:He.
  - destruct (Hnames k industry expert_info) as [name ->]; [by left|done..|].
    rewrite !bool_decide_eq_true_2 by eauto. simpl. lia.
  - rewrite (bool_decide_eq_false_2 (is_Some None)) by (by intros [? ?]).
    rewrite andb_false_r. simpl. lia.
Qed.

(** X11: the count a completed merge returns is between 0 and 5, and it is
    5 exactly when each of the five keys is in both documents. *)
Theorem updated_count_bounds src C industries experts w C' n w' :
  industries_of C = Some industries →
  experts_of src = Some experts →
  update_experts repr src expert_mapping C 0 w = (Ok (C', n), w') →
  0 ≤ n ≤ 5
  ∧ (n = 5 ↔ ∀ key, key ∈ expert_keys →
                    is_Some (industries !! key) ∧ is_Some (experts !! key)).
Proof.
  intros [top ->]%catalog_of_industries Hsrc Hrun.
  destruct (update_experts_Ok_inv _ _ _ _ _ _ _ _ _ Hsrc Hrun)
    as (industries' & _ & _ & -> & _).
  destruct (count_in_both_bounds industries experts expert_keys) as [Hb Hall].
  split; [exact Hb|]. change 5 with (Z.of_nat (length expert_keys)).
  rewrite Hall. split; intros H key Hkey.
  - apply H, in_both_true in Hkey as (? & ? & -> & ->). eauto.
  - destruct (H key Hkey) as [[? ?] [? ?]]. apply in_both_true. eauto.
Qed.
End Order.

Section Stop.
Variable repr : json → string.
Variable message : exception → string.

End Stop.

(** ** Exceptions of the loop body *)



Section Body.
Variable repr : json → string.



End Body.

(** ** Documents that lack a mapping *)

Section Lacking.
Variable repr : json → string.





End Lacking.

Section LackingRun.
Variable repr : json → string.
Variable message : exception → string.



(** A run that completes, in terms of the files. *)
Lemma run_Ok_files w b w' :
  update_expert_templates repr w = (Ok b, w') →
  ∃ C src D,
    files w !! original_file = Some (Document C)
    ∧ files w !! optimized_file = Some (Document src)
    ∧ files w' = <[original_file := Document D]>
                   (<[backup_file_of w := Document C]> (files w)).
Proof.
  intros Hrun.
  destruct (run_Ok_loaded repr w b w' Hrun) as (C & src & HC & Hsrc).
  destruct (run_loaded repr w C src HC Hsrc)
    as (wb & r & w1 & _ & _ & _ & _ & Hr).
  destruct r as [[[| | | | | |m] n]|e]; try congruence.
  destruct Hr as (w2 & Hrun2 & Hfiles & _).
  rewrite Hrun in Hrun2. injection Hrun2 as _ ->. by eexists C, src, _.
Qed.

(** X16: backups of successive runs.  After two runs that complete, the
    backup of the second run holds the catalog that the first run wrote.
    The backup of the first run still holds the original catalog if the two
    runs read different time stamps; if they read the same one, the second
    backup has replaced it and the original catalog is no longer in it. *)
Theorem backups_of_two_runs w b1 w1 b2 w2 :
  update_expert_templates repr w = (Ok b1, w1) →
  update_expert_templates repr w1 = (Ok b2, w2) →
  ∃ C D1,
    files w !! original_file = Some (Document C)
    ∧ files w1 !! original_file = Some (Document D1)
    ∧ files w2 !! backup_file_of w1 = Some (Document D1)
    ∧ (backup_file_of w1 ≠ backup_file_of w →
       files w2 !! backup_file_of w = Some (Document C))
    ∧ (backup_file_of w1 = backup_file_of w →
       files w2 !! backup_file_of w = Some (Document D1)).
Proof.
  intros Hrun1 Hrun2.
  destruct (run_Ok_files w b1 w1 Hrun1) as (C & src & D1 & HC & Hsrc & Hfiles1).
  destruct (run_Ok_files w1 b2 w2 Hrun2) as (C1 & src1 & D2 & HC1 & _ & Hfiles2).
  rewrite Hfiles1, lookup_insert_eq in HC1. injection HC1 as <-.
  exists C, D1. split; [done|]. split; [by rewrite Hfiles1, lookup_insert_eq|].
  assert (∀ v, backup_file_of v ≠ original_file) as Hne
    by (intros v; apply backup_path_original).
  rewrite Hfiles2. split; [|split].
  - by rewrite lookup_insert_ne, lookup_insert_eq by (by apply not_eq_sym).
  - intros Hdiff. rewrite lookup_insert_ne by (by apply not_eq_sym).
    rewrite lookup_insert_ne by done.
    rewrite Hfiles1, lookup_insert_ne by (by apply not_eq_sym).
    by rewrite lookup_insert_eq.
  - intros <-. by rewrite lookup_insert_ne, lookup_insert_eq by (by apply not_eq_sym).
Qed.
End LackingRun.

(** ** The name of the backup *)

Lemma has_separator_app a b :
  has_separator (a +:+ b) = has_separator a || has_separator b.
Proof.
  induction a as [|c a IH]; [done|].
  change (String c a +:+ b) with (String c (a +:+ b)). cbn [has_separator].
  by destruct (decide (c = "/"%char)).
Qed.

Lemma pretty_N_char_not_separator x : pretty_N_char x ≠ "/"%char.
Proof. unfold pretty_N_char. by repeat case_match. Qed.

Lemma has_separator_pretty_N_go x s :
  has_separator (pretty_N_go x s) = has_separator s.
Proof.
  revert s. induction (N.lt_wf_0 x) as [x _ IH]; intros s.
  destruct (decide (x = 0)%N) as [->|Hx]; [by rewrite pretty_N_go_0|].
  rewrite pretty_N_go_step by lia. rewrite IH by (apply N.div_lt; lia).
  cbn [has_separator]. destruct (decide _) as [Heq|]; [|done].
  by destruct (pretty_N_char_not_separator _ Heq).
Qed.

Lemma has_separator_pretty_nat (n : nat) : has_separator (pretty n) = false.
Proof.
  unfold pretty, pretty_nat, pretty, pretty_N.
  destruct (decide _); [done|]. by rewrite has_separator_pretty_N_go.
Qed.

Lemma has_separator_pad2 n : has_separator (pad2 n) = false.
Proof.
  unfold pad2. destruct (decide _); [|apply has_separator_pretty_nat].
  rewrite has_separator_app, has_separator_pretty_nat. done.
Qed.

Lemma strftime_stamp t :
  strftime "%Y%m%d_%H%M%S" t
  = pretty (year t) +:+ pad2 (month t) +:+ pad2 (day t) +:+ "_"
    +:+ pad2 (hour t) +:+ pad2 (minute t) +:+ pad2 (second t) +:+ "".
Proof. reflexivity. Qed.

Lemma basename_in_directory directory name :
  has_separator name = false →
  basename (directory +:+ String "/" name) = name.
Proof.
  intros Hname. induction directory as [|c directory IH].
  - change ("" +:+ String "/" name) with (String "/" name).
    cbn [basename]. rewrite Hname. by rewrite decide_True.
  - change (String c directory +:+ String "/" name)
      with (String c (directory +:+ String "/" name)).
    cbn [basename]. rewrite has_separator_app.
    cbn [has_separator]. rewrite decide_True by done. by rewrite orb_true_r.
Qed.

(** X17: whatever the clock reads, the backup is written into the directory
    of the catalog, under the name [templates-2025-backup-], the time stamp
    and [.json]; the stamp is the year, the two-digit month and day, an
    underscore, and the two-digit hour, minute and second; and this name,
    without the directory, is what [os.path.basename] gives for
    [optimizationInfo.backupFile]. *)
Theorem backup_name w :
  let t := clock w (ticks w) in
  let stamp := strftime "%Y%m%d_%H%M%S" t in
  let name := "templates-2025-backup-" +:+ stamp +:+ ".json" in
  stamp = pretty (year t) +:+ pad2 (month t) +:+ pad2 (day t) +:+ "_"
          +:+ pad2 (hour t) +:+ pad2 (minute t) +:+ pad2 (second t) +:+ ""
  ∧ backup_file_of w = "/home/kexing/09-ai-prompt-generator/data" +:+ String "/" name
  ∧ basename (backup_file_of w) = name
  ∧ original_file
    = "/home/kexing/09-ai-prompt-generator/data" +:+ String "/" "templates-2025.json".
Proof.
  intros t stamp name. split; [reflexivity|]. split; [reflexivity|].
  split; [|reflexivity].
  change (backup_file_of w)
    with ("/home/kexing/09-ai-prompt-generator/data" +:+ String "/" name).
  apply basename_in_directory. unfold name, stamp.
  rewrite strftime_stamp.
  by rewrite !has_separator_app, has_separator_pretty_nat, !has_separator_pad2.
Qed.

(** ** The further properties on the sample documents *)

Lemma load_failure_writes_nothing_witness :
  (main Sample.repr Sample.message Edge.w_no_catalog).1 = 1
  ∧ files (main Sample.repr Sample.message Edge.w_no_catalog).2
    = files Edge.w_no_catalog
  ∧ (update_expert_templates Sample.repr Edge.w_no_catalog).1
    = Raise (FileNotFoundError original_file).
Proof.
  apply (load_failure_writes_nothing Sample.repr Sample.message Edge.w_no_catalog).
  intros C src [H _]. vm_compute in H. discriminate H.
Defined.


Lemma builder_exceptions_witness :
  create_optimized_template Sample.repr "nurse" Sample.source JNull
    = Raise (KeyError "nurse")
  ∧ create_optimized_template Sample.repr "lawyer" Edge.source JNull
    = Raise (KeyError "description").
Proof.
  split.
  - destruct (builder_exceptions Sample.repr "nurse" Sample.source Sample.experts JNull)
      as (Hkey & _); [reflexivity|].
    apply Hkey. reflexivity.
  - destruct (builder_exceptions Sample.repr "lawyer" Edge.source Edge.experts JNull)
      as (_ & _ & Hfield & _); [reflexivity|].
    apply (Hfield Edge.name_only); reflexivity.
Defined.

Lemma sample_loop_runs :
  ∃ C' n w',
    update_experts Sample.repr Sample.source expert_mapping Sample.document 0 Sample.w
    = (Ok (C', n), w').
Proof.
  apply (update_experts_mergeable Sample.repr Sample.source Sample.document
           Sample.industries Sample.experts Sample.w).
  - apply industries_of_catalog.
  - reflexivity.
  - exact sample_mergeable.
Qed.

Lemma merged_industry_entries_witness :
  ∃ C' n w' after,
    update_experts Sample.repr Sample.source expert_mapping Sample.document 0 Sample.w
      = (Ok (C', n), w')
    ∧ getpath C' ["industries"; "lawyer"] = Ok (JObj after)
    ∧ after !! "name" = Some (JStr "L")
    ∧ after !! "emoji" = Some (JStr "*").
Proof.
  destruct sample_loop_runs as (C' & n & w' & Hrun).
  destruct (merged_industry_entries Sample.repr Sample.source Sample.document
              Sample.industries Sample.experts "lawyer" Sample.w C' n w')
    as (industries' & before & after & expert_info & Hi' & _ & Ha & He & Hname & _
        & Hemoji & _).
  - apply industries_of_catalog.
  - reflexivity.
  - by_lookup.
  - by_lookup.
  - by_lookup.
  - exact Hrun.
  - change (Some (Sample.expert "L") = Some expert_info) in He. injection He as <-.
    exists C', n, w', after. split; [exact Hrun|].
    destruct (catalog_of_industries _ _ Hi') as [top' ->].
    split; [by rewrite (getpath_catalog_industry _ _ _ _ [] Ha)|].
    rewrite !getitem_obj in Hname, Hemoji.
    change (Sample.expert "L") with (JObj Edge.lawyer_expert) in Hname, Hemoji.
    rewrite getitem_obj in Hname, Hemoji.
    change (Edge.lawyer_expert !! "name") with (Some (JStr "L")) in Hname.
    change (Edge.lawyer_expert !! "emoji") with (Some (JStr "*")) in Hemoji.
    destruct (after !! "name") as [x|]; [|discriminate Hname].
    destruct (after !! "emoji") as [y|]; [|discriminate Hemoji].
    injection Hname as ->. injection Hemoji as ->. split; reflexivity.
Defined.

Lemma industries_keys_preserved_witness :
  ∃ C' n w' industries',
    update_experts Sample.repr Sample.source expert_mapping Sample.document 0 Sample.w
      = (Ok (C', n), w')
    ∧ industries_of C' = Some industries'
    ∧ dom industries' = dom Sample.industries.
Proof.
  destruct sample_loop_runs as (C' & n & w' & Hrun).
  destruct (industries_keys_preserved Sample.repr Sample.source Sample.document
              Sample.industries Sample.experts Sample.w C' n w')
    as (industries' & Hi' & Hdom).
  - apply industries_of_catalog.
  - reflexivity.
  - exact Hrun.
  - exists C', n, w', industries'. split; [exact Hrun|]. split; [exact Hi'|exact Hdom].
Defined.

Lemma merge_console_lines_witness :
  ∃ C' n w',
    update_experts Sample.repr Sample.source expert_mapping Sample.document 0 Sample.w
      = (Ok (C', n), w')
    ∧ stdout w' = ["🔄 更新 T 专家..."; "✅ T 更新完成"; "🔄 更新 L 专家..."; "✅ L 更新完成"]
    ∧ n = 2.
Proof.
  destruct sample_loop_runs as (C' & n & w' & Hrun).
  destruct (merge_console_lines Sample.repr Sample.source Sample.document
              Sample.industries Sample.experts Sample.w C' n w')
    as (Hout & Hlen).
  - apply industries_of_catalog.
  - reflexivity.
  - exact Hrun.
  - exists C', n, w'. split; [exact Hrun|].
    assert (progress_lines Sample.repr Sample.industries Sample.experts expert_keys
            = ["🔄 更新 T 专家..."; "✅ T 更新完成"; "🔄 更新 L 专家..."; "✅ L 更新完成"])
      as Hlines by (vm_compute; reflexivity).
    rewrite Hlines in Hout, Hlen. split; [exact Hout|]. cbn [length] in Hlen. lia.
Defined.

Lemma updated_count_bounds_witness :
  ∃ C' n w',
    update_experts Sample.repr Sample.source expert_mapping Sample.document 0 Sample.w
      = (Ok (C', n), w')
    ∧ 0 ≤ n ≤ 5.
Proof.
  destruct sample_loop_runs as (C' & n & w' & Hrun).
  destruct (updated_count_bounds Sample.repr Sample.source Sample.document
              Sample.industries Sample.experts Sample.w C' n w')
    as (Hbounds & _).
  - apply industries_of_catalog.
  - reflexivity.
  - exact Hrun.
  - exists C', n, w'. split; [exact Hrun|exact Hbounds].
Defined.






Lemma backups_of_two_runs_witness :
  ∃ D1,
    files Sample.once !! original_file = Some (Document D1)
    ∧ files Sample.twice !! backup_file_of Sample.once = Some (Document D1)
    ∧ files Sample.twice !! backup_file_of Sample.w = Some (Document Sample.document).
Proof.
  destruct (backups_of_two_runs Sample.repr Sample.w true Sample.once true Sample.twice)
    as (C & D1 & HC & HD1 & Hsecond & Hfirst & _).
  - apply (pair_of_fst (update_expert_templates Sample.repr Sample.w) (Ok true)).
    vm_compute. reflexivity.
  - apply (pair_of_fst (update_expert_templates Sample.repr Sample.once) (Ok true)).
    vm_compute. reflexivity.
  - change (Some (Document Sample.document) = Some (Document C)) in HC.
    injection HC as <-.
    exists D1. split; [exact HD1|]. split; [exact Hsecond|].
    apply Hfirst. intros Heq.
    apply (f_equal (String.get 77)) in Heq. vm_compute in Heq. discriminate Heq.
Defined.
